(** * Sonograph-X: the report session engine

    A shallow embedding of the decision logic of the Sonograph-X reporting
    application, and the properties of its specification settled against it.

    Sources embedded here:
    - [src/unnamed/part_000]: the current [App] component (templates,
      snippets, save, the Firebase Functions AI bridge [callAiFunction]);
    - [src/src/App.jsx]: the earlier [App] component, whose AI bridge
      [callGemini] carries the retry loop (module [Legacy]);
    - [src/functions/index.js]: the cloud function [generateReportText]
      (module [Functions]).

    Conventions.
    - A JavaScript string is the list of its UTF-16 code units ([jsstring]),
      so [length] is the JS [length] and [++] is JS concatenation.
    - A JavaScript number is an integer or [NaN] ([jsnum]); every number the
      modelled code computes is an integer far below 2^53, and the sign of
      zero is never observed, so doubles are not needed.
    - React state is a record; a handler is a function from the state (and
      from what the outside world answers) to the new state and the list
      of effects it performed, in order. *)

From Stdlib Require Import List ZArith NArith Bool Lia String Ascii.
From Stdlib Require Import Permutation Sorted.
Import ListNotations.

Local Open Scope Z_scope.

(* ================================================================== *)
(** * JavaScript values *)
(* ================================================================== *)

(** ** Strings *)

Definition jsstring := list N.

(** An ASCII literal as a JS string. *)
Definition str (s : string) : jsstring :=
  List.map N_of_ascii (list_ascii_of_string s).

(** The escape [\n]. *)
Definition nl : jsstring := [10%N].

Definition jsstring_eqb (a b : jsstring) : bool :=
  if list_eq_dec N.eq_dec a b then true else false.

(** Truthiness of a string: every string but [''] is truthy. *)
Definition truthy (s : jsstring) : bool :=
  match s with [] => false | _ :: _ => true end.

(** [a || b] on strings. *)
Definition or_else (a b : jsstring) : jsstring :=
  if truthy a then a else b.

(** [s.charAt(i)]: the one-unit string at index [i], [''] out of range. *)
Definition charAt (s : jsstring) (i : nat) : jsstring :=
  firstn 1 (skipn i s).

(** [s.substring(a, b)] for [a <= b] (the only use in the program). *)
Definition substring (s : jsstring) (a b : nat) : jsstring :=
  firstn (b - a) (skipn a s).

(** ECMAScript [StrWhiteSpaceChar]: white space and line terminators. *)
Definition isWhiteSpace (c : N) : bool :=
  (existsb (N.eqb c)
     [9; 10; 11; 12; 13; 32; 160; 5760; 8232; 8233; 8239; 8287; 12288; 65279]
   || ((8192 <=? c) && (c <=? 8202)))%N.

Fixpoint trimStart (s : jsstring) : jsstring :=
  match s with
  | [] => []
  | c :: s' => if isWhiteSpace c then trimStart s' else s
  end.

(** [s.trim()]. *)
Definition trim (s : jsstring) : jsstring :=
  rev (trimStart (rev (trimStart s))).

(** ** Numbers *)

Inductive jsnum : Type :=
| NaN
| Num (z : Z).

Definition js_add (a b : jsnum) : jsnum :=
  match a, b with Num x, Num y => Num (x + y) | _, _ => NaN end.

Definition js_sub (a b : jsnum) : jsnum :=
  match a, b with Num x, Num y => Num (x - y) | _, _ => NaN end.

(** [a % b]: the sign follows the dividend; [NaN] for a zero divisor. *)
Definition js_rem (a b : jsnum) : jsnum :=
  match a, b with
  | Num x, Num y => if y =? 0 then NaN else Num (Z.rem x y)
  | _, _ => NaN
  end.

(** [a < b], false as soon as one side is [NaN]. *)
Definition js_lt (a b : jsnum) : bool :=
  match a, b with Num x, Num y => x <? y | _, _ => false end.

(** [a === b], false as soon as one side is [NaN]. *)
Definition js_eq (a b : jsnum) : bool :=
  match a, b with Num x, Num y => x =? y | _, _ => false end.

(** [a !== b]. *)
Definition js_neq (a b : jsnum) : bool := negb (js_eq a b).

(** ** [parseInt(s)] with no radix argument *)

(** The value of a code unit as a digit: [0-9], [a-z], [A-Z]. *)
Definition digitValue (c : N) : option Z :=
  if ((48 <=? c) && (c <=? 57))%N then Some (Z.of_N c - 48)
  else if ((97 <=? c) && (c <=? 122))%N then Some (Z.of_N c - 87)
  else if ((65 <=? c) && (c <=? 90))%N then Some (Z.of_N c - 55)
  else None.

(** The longest prefix of radix-[R] digits; [acc] is [None] until a digit
    was read. *)
Fixpoint parseDigits (R : Z) (acc : option Z) (s : jsstring) : option Z :=
  match s with
  | [] => acc
  | c :: s' =>
      match digitValue c with
      | Some d =>
          if d <? R
          then parseDigits R (Some (R * match acc with Some v => v | None => 0 end + d)) s'
          else acc
      | None => acc
      end
  end.

Definition parseInt (s : jsstring) : jsnum :=
  let s1 := trimStart s in
  let '(sign, s2) :=
    match s1 with
    | c :: r => if (c =? 45)%N then (-1, r) else if (c =? 43)%N then (1, r) else (1, s1)
    | [] => (1, s1)
    end in
  let '(R, s3) :=
    match s2 with
    | c0 :: c1 :: r =>
        if ((c0 =? 48) && ((c1 =? 120) || (c1 =? 88)))%N then (16, r) else (10, s2)
    | _ => (10, s2)
    end in
  match parseDigits R None s3 with
  | Some v => Num (sign * v)
  | None => NaN
  end.

(* ================================================================== *)
(** * DemographicResolver: the RRN effect *)
(* ================================================================== *)

(** What the effect reads from [new Date()]. *)
Record Today : Type := mkToday {
  getFullYear : Z;
  getMonth : Z;   (* 0 .. 11 *)
  getDate : Z     (* 1 .. 31 *)
}.

Definition valid_today (t : Today) : Prop :=
  0 <= getMonth t <= 11 /\ 1 <= getDate t <= 31.

(** [ageSex.sex]: [''], ['Male'] or ['Female']. *)
Inductive Sex : Type := SexEmpty | Male | Female.

(** [ageSex.age]: [''] or a number. *)
Inductive Age : Type := AgeEmpty | AgeNumber (n : jsnum).

Record AgeSex : Type := mkAgeSex { age : Age; sex : Sex }.

(** [form.rrn.replace(/-/g, '')]: every hyphen (code unit 45) removed,
    nothing else. *)
Definition replaceHyphens (s : jsstring) : jsstring :=
  filter (fun c => negb (c =? 45)%N) s.

Section RRN.
(** [rrn] is the identifier with its hyphens removed. *)
Variable rrn : jsstring.

Definition rrn_digit : jsnum := parseInt (charAt rrn 6).

Definition rrn_yearPrefix : Z :=
  if js_eq rrn_digit (Num 1) || js_eq rrn_digit (Num 2)
     || js_eq rrn_digit (Num 5) || js_eq rrn_digit (Num 6)
  then 1900 else 2000.

Definition rrn_year : jsnum :=
  js_add (Num rrn_yearPrefix) (parseInt (substring rrn 0 2)).

Definition rrn_month : jsnum :=
  js_sub (parseInt (substring rrn 2 4)) (Num 1).

Definition rrn_day : jsnum := parseInt (substring rrn 4 6).

(** [age--] is taken when today is before the birthday. *)
Definition rrn_decrement (today : Today) : bool :=
  js_lt (Num (getMonth today)) rrn_month
  || (js_eq (Num (getMonth today)) rrn_month
      && js_lt (Num (getDate today)) rrn_day).

Definition rrn_age (today : Today) : jsnum :=
  let age := js_sub (Num (getFullYear today)) rrn_year in
  if rrn_decrement today then js_sub age (Num 1) else age.

Definition rrn_sex : Sex :=
  if js_neq (js_rem rrn_digit (Num 2)) (Num 0) then Male else Female.
End RRN.

(** The body of the effect on [form.rrn]; the result is what it passes to
    [setAgeSex]. *)
Definition rrnEffect (today : Today) (form_rrn : jsstring) : AgeSex :=
  let rrn := replaceHyphens form_rrn in
  if (List.length rrn <? 7)%nat then
    {| age := AgeEmpty; sex := SexEmpty |}
  else
    {| age := AgeNumber (rrn_age rrn today); sex := rrn_sex rrn |}.

(** The number of decimal digits of a string (used to state the
    specification's reading of the guard). *)
Definition isDigit (c : N) : bool := ((48 <=? c) && (c <=? 57))%N.

Definition digitCount (s : jsstring) : nat :=
  List.length (filter isDigit s).

(* ================================================================== *)
(** * TemplateCatalog *)
(* ================================================================== *)

(** An entry of the [TEMPLATES] object. *)
Record Template : Type := mkTemplate {
  normal : jsstring;
  impression_text : jsstring
}.

(** A JS object used as a string-keyed table, in source order. Keys are
    distinct in both catalogs, so the first match is the property. *)
Definition Catalog := list (jsstring * Template).

Fixpoint lookup (key : jsstring) (c : Catalog) : option Template :=
  match c with
  | [] => None
  | (k, v) :: c' => if jsstring_eqb key k then Some v else lookup key c'
  end.

(** [TEMPLATES] of the current component. *)
Definition TEMPLATES : Catalog :=
  [
    (str "Abdomen US",
     {| normal :=
          str "Liver is appropriate in size with homogeneous echotexture and no focal lesion." ++
          nl ++
          str "Gallbladder is well-distended without wall thickening, stones, or sludge; common duct is not dilated." ++
          nl ++
          str "Pancreas and spleen are unremarkable." ++ nl ++
          str "Both kidneys are normal in size and echogenicity without hydronephrosis or calculus.";
        impression_text := str "Normal abdominal ultrasound." |});
    (str "Kidney-Bladder US",
     {| normal :=
          str "Both kidneys demonstrate preserved corticomedullary differentiation with no calculus or hydronephrosis." ++
          nl ++
          str "Ureters are not dilated." ++ nl ++
          str "Urinary bladder is smoothly contoured without wall thickening or intraluminal debris; post-void residual is minimal if assessed.";
        impression_text := str "Normal renal and bladder ultrasound." |});
    (str "Neonatal Spine US",
     {| normal :=
          str "Conus medullaris terminates at L1" ++ [8211]%N ++
          str "L2 with a thin, mobile filum." ++ nl ++
          str "No dorsal dermal sinus, lipoma, or intraspinal mass is identified." ++ nl ++
          str "Posterior elements are intact without evidence of dysraphism." ++ nl ++
          str "No abnormal fluid collection in the paraspinal soft tissues.";
        impression_text := str "Normal neonatal spinal canal and cord." |});
    (str "Pediatric Neck US",
     {| normal :=
          str "Thyroid lobes are normal in size with homogeneous echotexture." ++ nl ++
          str "Visualized cervical lymph nodes are small with preserved fatty hila and normal vascular pattern." ++
          nl ++
          str "No cystic or vascular neck mass is detected." ++ nl ++
          str "Salivary glands appear unremarkable.";
        impression_text := str "Normal pediatric neck ultrasound." |});
    (str "Neonatal Head US",
     {| normal :=
          str "Lateral ventricles are normal in caliber; third and fourth ventricles are not dilated." ++
          nl ++
          str "Germinal matrix at the caudothalamic groove is intact without echogenic focus." ++
          nl ++
          str "Periventricular white matter shows homogeneous echogenicity without cystic change." ++
          nl ++
          str "No evidence of intracranial hemorrhage or ventriculomegaly.";
        impression_text := str "Normal cranial ultrasound for age." |});
    (str "Scrotum US",
     {| normal :=
          str "Both testes are normal in size with homogeneous echogenicity and symmetric intratesticular flow." ++
          nl ++
          str "Epididymides are unremarkable." ++ nl ++
          str "No hydrocele, varicocele, or scrotal wall thickening is present." ++ nl ++
          str "Spermatic cords are intact without twisting.";
        impression_text := str "Normal scrotal ultrasound." |});
    (str "Prepubertal Uterus-Ovary US",
     {| normal :=
          str "Uterus is tubular and age-appropriate with thin endometrial stripe." ++ nl ++
          str "Both ovaries are normal in volume with small peripheral follicles; vascularity is symmetric." ++
          nl ++
          str "No adnexal mass or ovarian torsion is identified." ++ nl ++
          str "No free pelvic fluid.";
        impression_text := str "Normal prepubertal pelvic ultrasound." |});
    (str "Appendix US",
     {| normal :=
          str "The appendix is fully visualized, compressible, and measures <6 mm in diameter." ++
          nl ++
          str "Wall is not thickened; no periappendiceal fat stranding, fluid collection, or appendicolith is seen." ++
          nl ++
          str "No regional lymphadenopathy or free fluid.";
        impression_text := str "Normal appendix without sonographic evidence of appendicitis." |});
    (str "Bowel US",
     {| normal :=
          str "Visualized bowel loops show normal wall thickness and preserved peristalsis." ++
          nl ++
          str "No target/donut sign or intussusception is identified." ++ nl ++
          str "Mesentery is unremarkable without edema or lymphadenopathy." ++ nl ++
          str "No ascites or focal fluid collection.";
        impression_text := str "Normal bowel ultrasound." |})
  ].

(* ================================================================== *)
(** * ReportSession: the component state *)
(* ================================================================== *)

(** The [form] object. *)
Record Form : Type := mkForm {
  name : jsstring;
  id : jsstring;
  rrn : jsstring;
  date : jsstring;
  type : jsstring;
  indication : jsstring;
  findings : jsstring;
  impression : jsstring
}.

(** The three AI modes, ['polish'], ['impression'], ['explain']. *)
Inductive Mode : Type := polish | impression_mode | explain.

Definition mode_name (m : Mode) : jsstring :=
  match m with
  | polish => str "polish"
  | impression_mode => str "impression"
  | explain => str "explain"
  end.

(** [aiLoading]: [false] or the mode in flight. *)
Inductive AiLoading : Type := NotLoading | Loading (m : Mode).

(** The React state the handlers read and write. [user] holds [user.uid];
    [dbRef] and [functionsRef] say whether the ref's [current] is set. *)
Record AppState : Type := mkAppState {
  user : option jsstring;
  dbRef : bool;
  functionsRef : bool;
  currentId : option jsstring;
  aiLoading : AiLoading;
  explainModalOpen : bool;
  aiExplanation : jsstring;
  form : Form
}.

Definition setForm (f : Form -> Form) (st : AppState) : AppState :=
  mkAppState (user st) (dbRef st) (functionsRef st) (currentId st)
    (aiLoading st) (explainModalOpen st) (aiExplanation st) (f (form st)).

Definition setCurrentId (c : option jsstring) (st : AppState) : AppState :=
  mkAppState (user st) (dbRef st) (functionsRef st) c
    (aiLoading st) (explainModalOpen st) (aiExplanation st) (form st).

Definition setAiLoading (a : AiLoading) (st : AppState) : AppState :=
  mkAppState (user st) (dbRef st) (functionsRef st) (currentId st)
    a (explainModalOpen st) (aiExplanation st) (form st).

Definition setExplainModalOpen (b : bool) (st : AppState) : AppState :=
  mkAppState (user st) (dbRef st) (functionsRef st) (currentId st)
    (aiLoading st) b (aiExplanation st) (form st).

Definition setAiExplanation (s : jsstring) (st : AppState) : AppState :=
  mkAppState (user st) (dbRef st) (functionsRef st) (currentId st)
    (aiLoading st) (explainModalOpen st) s (form st).

(** [if (currentId)]: [null] and [''] are falsy. *)
Definition currentId_truthy (c : option jsstring) : bool :=
  match c with Some i => truthy i | None => false end.

(** The inputs wired to [handleChange], by their [name] attribute. *)
Inductive Field : Type :=
| f_name | f_id | f_rrn | f_date | f_indication | f_findings | f_impression.

(** [handleChange]: [setForm({ ...form, [e.target.name]: e.target.value })]. *)
Definition handleChange (k : Field) (value : jsstring) (st : AppState) : AppState :=
  setForm (fun prev =>
    match k with
    | f_name => mkForm value (id prev) (rrn prev) (date prev) (type prev) (indication prev) (findings prev) (impression prev)
    | f_id => mkForm (name prev) value (rrn prev) (date prev) (type prev) (indication prev) (findings prev) (impression prev)
    | f_rrn => mkForm (name prev) (id prev) value (date prev) (type prev) (indication prev) (findings prev) (impression prev)
    | f_date => mkForm (name prev) (id prev) (rrn prev) value (type prev) (indication prev) (findings prev) (impression prev)
    | f_indication => mkForm (name prev) (id prev) (rrn prev) (date prev) (type prev) value (findings prev) (impression prev)
    | f_findings => mkForm (name prev) (id prev) (rrn prev) (date prev) (type prev) (indication prev) value (impression prev)
    | f_impression => mkForm (name prev) (id prev) (rrn prev) (date prev) (type prev) (indication prev) (findings prev) value
    end) st.

Section Templates.
(** The handler is the same text in both components; only the table
    differs. *)
Variable catalog : Catalog.

(** [TEMPLATES[type]?.normal || '']. A key the table does not own gives
    [undefined] (own or inherited, the looked-up value has no [normal]),
    hence ['']. *)
Definition template_normal (t : jsstring) : jsstring :=
  match lookup t catalog with
  | Some e => or_else (normal e) []
  | None => []
  end.

(** [TEMPLATES[type]?.impression || '']. *)
Definition template_impression (t : jsstring) : jsstring :=
  match lookup t catalog with
  | Some e => or_else (impression_text e) []
  | None => []
  end.

(** [handleTemplate], with [e.target.value] as [t]. *)
Definition handleTemplate (t : jsstring) (st : AppState) : AppState :=
  setForm (fun prev =>
    mkForm (name prev) (id prev) (rrn prev) (date prev)
      t
      (indication prev)
      (template_normal t)
      (template_impression t)) st.
End Templates.

(** [addAbnormalSnippet]:
    [findings: prev.findings ? `${prev.findings}\n\n${text}` : text]. *)
Definition addAbnormalSnippet (text : jsstring) (st : AppState) : AppState :=
  setForm (fun prev =>
    mkForm (name prev) (id prev) (rrn prev) (date prev) (type prev)
      (indication prev)
      (if truthy (findings prev)
       then findings prev ++ nl ++ nl ++ text
       else text)
      (impression prev)) st.

(* ================================================================== *)
(** * Effects and the outside world *)
(* ================================================================== *)

(** The document written by a save: [{ ...form, updatedAt }]. *)
Record ReportData : Type := mkReportData {
  data_form : Form;
  updatedAt : jsstring
}.

(** How an awaited promise settles. *)
Inductive Settled (A : Type) : Type :=
| Resolves (a : A)
| Rejects (message : jsstring).
Arguments Resolves {A} a.
Arguments Rejects {A} message.

(** The request object passed to the callable, [{ mode, ...payload }].
    [None] is an absent property. *)
Module Req.
Record t : Type := mk {
  mode : option jsstring;
  findings : option jsstring;
  impression : option jsstring
}.
End Req.

(** What a handler does to the outside world, in order. An error object is
    recorded by its [message]; a gateway call is recorded with the way it
    settled ([AddDoc] resolves to [ref.id]). *)
Inductive Event : Type :=
| Alert (msg : jsstring)
| ConsoleError (args : list jsstring)
| AddDoc (collection : jsstring) (data : ReportData) (settled : Settled jsstring)
| SetDocMerge (collection docId : jsstring) (data : ReportData)
    (settled : Settled unit)
| CallFunction (fname : jsstring) (request : Req.t)
| Fetch (prompt : jsstring)
| SetTimeout (ms : Z).

(** The PersistenceGateway as seen by one save: how [addDoc] (resolving to
    [ref.id]) and [setDoc] settle. *)
Record Firestore : Type := mkFirestore {
  addDoc : jsstring -> ReportData -> Settled jsstring;
  setDoc : jsstring -> jsstring -> ReportData -> Settled unit
}.

Definition isGatewayCall (e : Event) : bool :=
  match e with AddDoc _ _ _ | SetDocMerge _ _ _ _ => true | _ => false end.

Definition isNetworkCall (e : Event) : bool :=
  match e with CallFunction _ _ | Fetch _ => true | _ => false end.

(* ================================================================== *)
(** * save *)
(* ================================================================== *)

Section Save.
(** The module constant [appId]. *)
Variable appId : jsstring.

(** [`artifacts/${appId}/users/${user.uid}/reports`]. *)
Definition reportsPath (uid : jsstring) : jsstring :=
  str "artifacts/" ++ appId ++ str "/users/" ++ uid ++ str "/reports".

(** [handleSave]. [now] is [new Date().toISOString()]; [db] answers the
    one call the handler may make. *)
Definition handleSave (now : jsstring) (db : Firestore) (st : AppState)
  : AppState * list Event :=
  match user st, dbRef st with
  | Some uid, true =>
      if negb (truthy (name (form st))) then
        (st, [Alert (str "Patient Name is required.")])
      else
        let data := mkReportData (form st) now in
        if currentId_truthy (currentId st) then
          let docId := match currentId st with Some i => i | None => [] end in
          let r := setDoc db (reportsPath uid) docId data in
          (st,
           [SetDocMerge (reportsPath uid) docId data r;
            match r with
            | Resolves _ => Alert (str "Report saved successfully.")
            | Rejects e => ConsoleError [str "Save failed"; e]
            end])
        else
          let r := addDoc db (reportsPath uid) data in
          match r with
          | Resolves ref_id =>
              (setCurrentId (Some ref_id) st,
               [AddDoc (reportsPath uid) data r;
                Alert (str "Report saved successfully.")])
          | Rejects e =>
              (st,
               [AddDoc (reportsPath uid) data r;
                ConsoleError [str "Save failed"; e]])
          end
  | _, _ => (st, [])
  end.
End Save.

(* ================================================================== *)
(** * AIBridge, client side: [callAiFunction] and its three handlers *)
(* ================================================================== *)

(** How [await fn(request)] settles for the callable [generateReportText]:
    it resolves to [res] with [res.data?.text] ([None] for [undefined]),
    or rejects with an error. *)
Definition Callable := Req.t -> Settled (option jsstring).

(** [callAiFunction(mode, payload)]; the payload is given by its two
    optional properties. The result is [null] ([None]) or a string. *)
Definition callAiFunction (fn : Callable) (st : AppState) (mode : Mode)
    (payload_findings payload_impression : option jsstring)
  : option jsstring * list Event :=
  if negb (functionsRef st) then
    (None,
     [Alert (str "AI service unavailable. Check Firebase Functions configuration.")])
  else
    let request := Req.mk (Some (mode_name mode)) payload_findings payload_impression in
    match fn request with
    | Resolves text =>
        (Some (or_else (match text with Some t => t | None => [] end) []),
         [CallFunction (str "generateReportText") request])
    | Rejects e =>
        (None,
         [CallFunction (str "generateReportText") request;
          ConsoleError [e];
          Alert (str "AI Service Error: " ++ or_else e (str "Unknown error"))])
    end.

Definition with_findings (v : jsstring) (prev : Form) : Form :=
  mkForm (name prev) (id prev) (rrn prev) (date prev) (type prev)
    (indication prev) v (impression prev).

Definition with_impression (v : jsstring) (prev : Form) : Form :=
  mkForm (name prev) (id prev) (rrn prev) (date prev) (type prev)
    (indication prev) (findings prev) v.

(** [if (result) setForm(prev => ({ ...prev, <field>: result }))]. *)
Definition write_back (upd : jsstring -> Form -> Form)
    (result : option jsstring) (st : AppState) : AppState :=
  match result with
  | Some r => if truthy r then setForm (upd r) st else st
  | None => st
  end.

(** [result || "Failed to generate explanation."]. *)
Definition explanation_of (result : option jsstring) : jsstring :=
  match result with
  | Some r => or_else r (str "Failed to generate explanation.")
  | None => str "Failed to generate explanation."
  end.

Definition handleAiPolish (fn : Callable) (st : AppState)
  : AppState * list Event :=
  if negb (truthy (findings (form st))) then
    (st, [Alert (str "Please enter findings first.")])
  else
    let st1 := setAiLoading (Loading polish) st in
    let '(result, evs) :=
      callAiFunction fn st1 polish (Some (findings (form st))) None in
    (setAiLoading NotLoading (write_back with_findings result st1), evs).

Definition handleAiImpression (fn : Callable) (st : AppState)
  : AppState * list Event :=
  if negb (truthy (findings (form st))) then
    (st, [Alert (str "Please enter findings first.")])
  else
    let st1 := setAiLoading (Loading impression_mode) st in
    let '(result, evs) :=
      callAiFunction fn st1 impression_mode (Some (findings (form st))) None in
    (setAiLoading NotLoading (write_back with_impression result st1), evs).

Definition handleAiExplain (fn : Callable) (st : AppState)
  : AppState * list Event :=
  if negb (truthy (findings (form st))) && negb (truthy (impression (form st))) then
    (st, [Alert (str "Report is empty.")])
  else
    let st1 :=
      setAiLoading (Loading explain)
        (setAiExplanation (str "Generating explanation...")
           (setExplainModalOpen true st)) in
    let '(result, evs) :=
      callAiFunction fn st1 explain
        (Some (findings (form st))) (Some (impression (form st))) in
    (setAiLoading NotLoading (setAiExplanation (explanation_of result) st1), evs).

(* ================================================================== *)
(** * AIBridge, server side: the cloud function [generateReportText] *)
(* ================================================================== *)

Module Functions.

(** What the function does to the outside world. *)
Inductive Event : Type :=
| OpenAICreate (model input : jsstring) (max_output_tokens : Z)
    (temperature_tenths : Z)
| LoggerError (msg e : jsstring).

Definition isOpenAICall (e : Event) : bool :=
  match e with OpenAICreate _ _ _ _ => true | _ => false end.

(** [buildPrompt(mode, { findings, impression })]; [Rejects] is a thrown
    [Error]. *)
Definition buildPrompt (mode findings impression : jsstring)
  : Settled jsstring :=
  if jsstring_eqb mode (str "polish") then
    Resolves (str "You are a pediatric radiologist. Rewrite the following ultrasound findings so they read like a formal ultrasound report using concise, standardized medical English. Do not add or remove findings" ++
    [8212]%N ++ str "only refine wording and flow." ++ nl ++
      nl ++
      str "Findings:" ++ nl ++ findings)
  else if jsstring_eqb mode (str "impression") then
    Resolves (str "You are a pediatric radiologist. Based ONLY on the following ultrasound findings, craft a concise Conclusion/Impression in formal ultrasound reporting language. Do not introduce new findings." ++
    nl ++
      nl ++
      str "Findings:" ++ nl ++ findings)
  else if jsstring_eqb mode (str "explain") then
    Resolves ([45817; 49888; 51008]%N ++ str " " ++ [49548; 50500]%N ++
    str " " ++ [50689; 49345; 51032; 54617; 44284]%N ++ str " " ++
    [51204; 47928; 51032; 51077; 45768; 45796]%N ++ str ". " ++
    [50500; 47000]%N ++ str " " ++ [52488; 51020; 54028]%N ++ str " " ++
    [49548; 44204; 44284]%N ++ str " Impression" ++ [51012]%N ++ str " " ++
    [48372; 54840; 51088; 44032]%N ++ str " " ++
    [51060; 54644; 54616; 44592]%N ++ str " " ++ [49789; 44172]%N ++
    str " " ++ [54620; 44397; 50612; 47196]%N ++ str " " ++
    [54400; 50612; 50416; 49464; 50836]%N ++ str ". " ++
    [48520; 50504; 44048; 51012]%N ++ str " " ++ [51460; 51060; 45716]%N ++
    str " " ++ [50612; 51312; 47196]%N ++ str " Summary" ++ [50752]%N ++
    str " " ++ [51088; 49464; 54620]%N ++ str " " ++
    [49444; 47749; 51012]%N ++ str " " ++ [44396; 48516; 54644]%N ++
    str " " ++ [51452; 44256]%N ++ str ", " ++ [51204; 47928]%N ++
    str " " ++ [50857; 50612; 45716]%N ++ str " " ++ [51687; 44172]%N ++
    str " " ++ [54400; 50612; 49436]%N ++ str " " ++
    [49444; 47749; 54633; 45768; 45796]%N ++ str "." ++ nl ++
      nl ++
      str "Findings: " ++ findings ++ nl ++
      str "Impression: " ++ impression)
  else Rejects (str "Unsupported mode").

(** How [await openai.responses.create(...)] settles: a completion with
    its [output_text] ([None] for [undefined]), or a rejection. *)
Definition OpenAI := jsstring -> Settled (option jsstring).

(** The handler of [generateReportText]; [data] is [request.data]
    ([None] when falsy). The result is the returned [text], or the
    message of the error thrown to the caller. *)
Definition generateReportText (openai : OpenAI) (data : option Req.t)
  : Settled jsstring * list Event :=
  let d := match data with Some d => d | None => Req.mk None None None end in
  let mode := Req.mode d in
  let findings := match Req.findings d with Some f => f | None => [] end in
  let impression := match Req.impression d with Some i => i | None => [] end in
  match mode with
  | None => (Rejects (str "mode is required"), [])
  | Some mode =>
      if negb (truthy mode) then (Rejects (str "mode is required"), [])
      else if negb (truthy findings) && negb (jsstring_eqb mode (str "explain"))
      then (Rejects (str "findings are required"), [])
      else
        match buildPrompt mode findings impression with
        | Rejects e => (Rejects e, [])
        | Resolves prompt =>
            let call :=
              OpenAICreate (str "gpt-4o-mini") prompt
                (if jsstring_eqb mode (str "explain") then 600 else 350) 3 in
            match openai prompt with
            | Resolves output_text =>
                (Resolves
                   (or_else
                      (match output_text with Some t => trim t | None => [] end)
                      []),
                 [call])
            | Rejects e =>
                (Rejects (str "AI generation failed"),
                 [call; LoggerError (str "OpenAI call failed") e])
            end
        end
  end.

End Functions.

(* ================================================================== *)
(** * The earlier component: [callGemini] and its handlers *)
(* ================================================================== *)

Module Legacy.

(** [TEMPLATES] of the earlier component. *)
Definition TEMPLATES : Catalog :=
  [
    (str "Abdomen US",
     {| normal :=
          str "The liver is normal in size and echotexture. No focal liver lesion is seen." ++
          nl ++
          str "The gallbladder is well-distended without wall thickening or stones." ++ nl ++
          str "The pancreas and spleen are unremarkable." ++ nl ++
          str "Both kidneys show normal size and echogenicity without hydronephrosis.";
        impression_text := str "Normal abdominal ultrasound." |});
    (str "Thyroid US",
     {| normal :=
          str "The thyroid gland is of normal size and homogeneous echotexture." ++ nl ++
          str "No nodules, cysts, or calcifications are identified." ++ nl ++
          str "Isthmus thickness is normal." ++ nl ++
          str "No abnormal cervical lymphadenopathy is observed.";
        impression_text := str "Normal thyroid ultrasound." |});
    (str "KUB (Kidney, Ureter, Bladder) US",
     {| normal :=
          str "Both kidneys are normal in size, position, and echotexture." ++ nl ++
          str "Corticomedullary differentiation is well-preserved." ++ nl ++
          str "No renal calculi or hydronephrosis is seen." ++ nl ++
          str "The urinary bladder is well-distended with smooth walls.";
        impression_text := str "Normal urinary tract ultrasound." |});
    (str "Carotid Doppler US",
     {| normal :=
          str "Common, internal, and external carotid arteries show normal caliber and flow velocities." ++
          nl ++
          str "Intima-media thickness (IMT) is within normal limits." ++ nl ++
          str "No hemodynamically significant stenosis or plaque is identified.";
        impression_text := str "Normal carotid Doppler study." |});
    (str "Breast US",
     {| normal :=
          str "Bilateral breasts show normal fibroglandular tissue echotexture." ++ nl ++
          str "No solid or cystic mass is identified." ++ nl ++
          str "No ductal dilatation or architectural distortion." ++ nl ++
          str "Axillary lymph nodes are unremarkable.";
        impression_text := str "BI-RADS Category 1: Negative." |});
    (str "Musculoskeletal US",
     {| normal :=
          str "Examined tendons and ligaments show normal fibrillar pattern and echogenicity." ++
          nl ++
          str "No effusion or synovial thickening in the joint." ++ nl ++
          str "No muscle tear or mass lesion identified.";
        impression_text := str "Normal musculoskeletal ultrasound." |});
    (str "Appendix US",
     {| normal :=
          str "The appendix is visualized with a diameter of less than 6mm." ++ nl ++
          str "It is compressible and shows no surrounding fat stranding or fluid collection.";
        impression_text := str "Normal appendix. No signs of appendicitis." |})
  ].

Definition MAX_RETRIES : nat := 3.

(** The parsed body. [candidate_text] is the read of
    [data.candidates[0].content.parts[0].text] followed by [.trim()]'s
    receiver check: the text, or the [TypeError] the access throws.
    [error_message] is [data.error?.message]. *)
Record Data : Type := mkData {
  candidate_text : Settled jsstring;
  error_message : option jsstring
}.

(** One round trip: [fetch] rejects, or resolves to a response with a
    [status] whose [json()] resolves or rejects. *)
Inductive FetchResult : Type :=
| FetchRejects (message : jsstring)
| Response (status : Z) (json : Settled Data).

(** [response.ok]. *)
Definition ok (status : Z) : bool := (200 <=? status) && (status <=? 299).

(** The answer to the [i]-th request of one [callGemini] call. *)
Definition Network := nat -> FetchResult.

(** [1000 * Math.pow(2, i)]. *)
Definition backoff (i : nat) : Z := 1000 * 2 ^ Z.of_nat i.

Section CallGemini.
Variable net : Network.
Variable prompt : jsstring.

(** The [for] loop from index [i] with [remaining = MAX_RETRIES - i]
    iterations left; falling out of the loop is [return null]. *)
Fixpoint callGemini_from (i remaining : nat) : option jsstring * list Event :=
  match remaining with
  | O => (None, [])
  | S remaining' =>
      let next := callGemini_from (S i) remaining' in
      (* the [catch (e)] block, then the next iteration *)
      let catch (e : jsstring) :=
        (fst next,
         [Fetch prompt; ConsoleError [e]]
         ++ (if Nat.eqb i (MAX_RETRIES - 1)
             then [Alert (str "AI Service Error: " ++ e)] else [])
         ++ snd next) in
      match net i with
      | FetchRejects e => catch e
      | Response status (Rejects e) => catch e
      | Response status (Resolves data) =>
          if ok status then
            match candidate_text data with
            | Resolves text => (Some (trim text), [Fetch prompt])
            | Rejects e => catch e
            end
          else if negb (status =? 429) then
            catch (match error_message data with Some m => m | None => [] end)
          else
            (fst next, [Fetch prompt; SetTimeout (backoff i)] ++ snd next)
      end
  end.

Definition callGemini : option jsstring * list Event :=
  callGemini_from 0 MAX_RETRIES.
End CallGemini.

Definition handleAiPolish (net : Network) (st : AppState)
  : AppState * list Event :=
  if negb (truthy (findings (form st))) then
    (st, [Alert (str "Please enter findings first.")])
  else
    let st1 := setAiLoading (Loading polish) st in
    let prompt := 
      str "You are a professional radiologist. Rewrite the following ultrasound findings to be more professional, concise, and use standard medical English. Do not add new information." ++
      nl ++
      nl ++
      str "Findings:" ++ nl ++ findings (form st) in
    let '(result, evs) := callGemini net prompt in
    (setAiLoading NotLoading (write_back with_findings result st1), evs).

Definition handleAiImpression (net : Network) (st : AppState)
  : AppState * list Event :=
  if negb (truthy (findings (form st))) then
    (st, [Alert (str "Please enter findings first.")])
  else
    let st1 := setAiLoading (Loading impression_mode) st in
    let prompt := 
      str "You are a professional radiologist. Based ONLY on the following ultrasound findings, generate a concise Conclusion/Impression. Use standard medical terminology." ++
      nl ++
      nl ++
      str "Findings:" ++ nl ++ findings (form st) in
    let '(result, evs) := callGemini net prompt in
    (setAiLoading NotLoading (write_back with_impression result st1), evs).

Definition handleAiExplain (net : Network) (st : AppState)
  : AppState * list Event :=
  if negb (truthy (findings (form st))) && negb (truthy (impression (form st))) then
    (st, [Alert (str "Report is empty.")])
  else
    let st1 :=
      setAiLoading (Loading explain)
        (setAiExplanation (str "Generating explanation...")
           (setExplainModalOpen true st)) in
    let prompt := 
      str "Explain the following ultrasound report for a patient in simple, reassuring language (in English). Avoid medical jargon where possible or explain it clearly. Structure it with a Summary and Key Details." ++
      nl ++
      nl ++
      str "Findings: " ++ findings (form st) ++ nl ++
      str "Impression: " ++ impression (form st) in
    let '(result, evs) := callGemini net prompt in
    (setAiLoading NotLoading (setAiExplanation (explanation_of result) st1), evs).

End Legacy.

(* ================================================================== *)
(** * Vocabulary of the properties *)
(* ================================================================== *)

(** Sample values, runs of a session, and the predicates on traces in
    which the properties below are stated. *)

(** [{ age: '', sex: '' }]. *)
Definition emptyAgeSex : AgeSex := {| age := AgeEmpty; sex := SexEmpty |}.

(** The date used in the worked examples: 3 November 2026. *)
Definition today_example : Today := mkToday 2026 10 3.

(** The form after [handleNew] on that day. *)
Definition blankForm : Form :=
  mkForm [] [] [] (str "2026-11-03") [] [] [] [].

(** A session used in the worked examples: signed in, database and
    functions configured, nothing saved yet. *)
Definition freshSession : AppState :=
  mkAppState (Some (str "u1")) true true None NotLoading false [] blankForm.

(** [s.endsWith(suffix)]. *)
Definition endsWith (s suffix : jsstring) : bool :=
  (List.length suffix <=? List.length s)%nat
  && jsstring_eqb (skipn (List.length s - List.length suffix) s) suffix.

(** An event that leaves the store as it was: anything but a write that
    resolved or an update. *)
Definition persistsNothing (e : Event) : bool :=
  match e with
  | AddDoc _ _ (Resolves _) => false
  | SetDocMerge _ _ _ _ => false
  | _ => true
  end.

(** An event that is not a create, and if an update, one of document
    [cid]. *)
Definition updatesOnly (cid : jsstring) (e : Event) : bool :=
  match e with
  | AddDoc _ _ _ => false
  | SetDocMerge _ docId _ _ => jsstring_eqb docId cid
  | _ => true
  end.

(** The store never hands out the empty id. *)
Definition issuesIds (db : Firestore) : Prop :=
  forall c d i, addDoc db c d = Resolves i -> truthy i = true.

(** The invariant of a session that starts without a persistent id. *)
Definition createdOnce (st : AppState) (evs : list Event) : Prop :=
  (currentId_truthy (currentId st) = false
   /\ forallb persistsNothing evs = true)
  \/ (exists cid pre c d post,
        currentId st = Some cid
        /\ truthy cid = true
        /\ evs = pre ++ AddDoc c d (Resolves cid) :: post
        /\ forallb persistsNothing pre = true
        /\ forallb (updatesOnly cid) post = true).

(** A store that accepts every write and names the new document
    ["doc1"]. *)
Definition storeExample : Firestore :=
  mkFirestore (fun _ _ => Resolves (str "doc1")) (fun _ _ _ => Resolves tt).

(** The component in local mode: no Firebase configuration, hence
    [setUser({ uid: 'local' })] and no database. *)
Definition localSession : AppState :=
  mkAppState (Some (str "local")) false false None NotLoading false [] blankForm.

(** How one round trip ends for the loop of [callGemini]: with the text,
    with a rate-limit answer (status 429 and a readable body), or with an
    error thrown into the [catch] block. *)
Inductive Outcome : Type :=
| Success (text : jsstring)
| RateLimited
| Failure (message : jsstring).

(** The outcome of a round trip, by the tests the loop makes on it. *)
Definition classify (r : Legacy.FetchResult) : Outcome :=
  match r with
  | Legacy.FetchRejects e => Failure e
  | Legacy.Response _ (Rejects e) => Failure e
  | Legacy.Response status (Resolves data) =>
      if Legacy.ok status then
        match Legacy.candidate_text data with
        | Resolves t => Success t
        | Rejects e => Failure e
        end
      else if status =? 429 then RateLimited
      else Failure (match Legacy.error_message data with
                    | Some m => m
                    | None => []
                    end)
  end.



(** The number of requests sent. *)
Definition requests (evs : list Event) : nat :=
  List.length (filter isNetworkCall evs).

(** The waits, in order. *)
Fixpoint delays (evs : list Event) : list Z :=
  match evs with
  | [] => []
  | SetTimeout ms :: evs' => ms :: delays evs'
  | _ :: evs' => delays evs'
  end.

(** A body with the generated text. *)
Definition textBody (t : jsstring) : Settled Legacy.Data :=
  Resolves (Legacy.mkData (Resolves t) None).

(** A body with an error message and no candidates. *)
Definition errorBody (m : jsstring) : Settled Legacy.Data :=
  Resolves (Legacy.mkData
              (Rejects (str "Cannot read properties of undefined"))
              (Some m)).


(** A rate-limit answer, then the text. *)
Definition rateLimitThenText : Legacy.Network :=
  fun i =>
    match i with
    | O => Legacy.Response 429 (errorBody (str "Quota exceeded"))
    | _ => Legacy.Response 200 (textBody (str " Normal study. "))
    end.

(* ================================================================== *)
(** * The rest of the components *)
(* ================================================================== *)

(** ** Abnormal snippets *)

(** An entry of a snippet group, [{ label, text }]. *)
Module Item.
Record t : Type := mk {
  label : jsstring;
  text : jsstring
}.
End Item.

(** A string-keyed table, in source order; the first match is the own
    property. *)
Fixpoint lookupIn {A : Type} (key : jsstring) (o : list (jsstring * A))
  : option A :=
  match o with
  | [] => None
  | (k, v) :: o' => if jsstring_eqb key k then Some v else lookupIn key o'
  end.

(** [COMMON_ABNORMAL]. *)
Definition COMMON_ABNORMAL : list (jsstring * list Item.t) :=
  [
    (str "general",
     [
      Item.mk (str "Free fluid")
        (str "Small volume simple free fluid noted in the dependent pelvis without septation or debris.");
      Item.mk (str "Lymphadenopathy")
        (str "Mildly enlarged lymph nodes with preserved hilum and cortical thickness <3 mm, likely reactive.")
     ]);
    (str "Abdomen US",
     [
      Item.mk (str "Cholecystitis")
        (str "Gallbladder wall thickening with mural hyperemia and a positive sonographic Murphy sign; layering sludge without calculi. Common duct caliber is within normal limits.");
      Item.mk (str "Hepatomegaly")
        (str "Liver is enlarged with mildly increased echogenicity, compatible with diffuse parenchymal disease. No focal lesion or intrahepatic biliary dilatation.");
      Item.mk (str "Splenomegaly")
        (str "Spleen is enlarged for age with homogeneous echotexture and no focal lesion.")
     ]);
    (str "Kidney-Bladder US",
     [
      Item.mk (str "Hydronephrosis")
        (str "Pelvicalyceal dilatation with cortical thickness preserved; no visible obstructing calculus. Ureter is not dilated.");
      Item.mk (str "Pyelonephritis")
        (str "Patchy areas of reduced corticomedullary differentiation with focal parenchymal hyperemia; no abscess or perinephric collection.");
      Item.mk (str "Cystitis")
        (str "Urinary bladder shows diffuse wall thickening with mild mucosal irregularity; no intraluminal mass. No perivesical collection.")
     ]);
    (str "Neonatal Spine US",
     [
      Item.mk (str "Low-lying conus")
        (str "Conus medullaris terminates below L2" ++ [8211]%N ++ str "L3 with a thickened filum; cord motion is limited, raising concern for tethered cord.");
      Item.mk (str "Dermal sinus tract")
        (str "Echogenic tract extending from the dermal dimple toward the dorsal spinal canal; no associated collection.")
     ]);
    (str "Pediatric Neck US",
     [
      Item.mk (str "Reactive nodes")
        (str "Multiple cervical lymph nodes are mildly enlarged with preserved fatty hila and central vascularity, favor reactive change.");
      Item.mk (str "Thyroglossal duct cyst")
        (str "Well-defined midline cystic lesion superior to the thyroid isthmus without internal vascularity.");
      Item.mk (str "Branchial cleft cyst")
        (str "Thin-walled cystic structure along the anterior border of the sternocleidomastoid muscle without solid component.")
     ]);
    (str "Neonatal Head US",
     [
      Item.mk (str "Germinal matrix hemorrhage")
        (str "Echogenic focus at the caudothalamic groove measuring ___ cm, consistent with germinal matrix hemorrhage (Grade I). Ventricular size is preserved.");
      Item.mk (str "Ventriculomegaly")
        (str "Lateral ventricles are enlarged with atrial width ___ mm; no echogenic intraventricular clot.");
      Item.mk (str "Periventricular leukomalacia")
        (str "Areas of increased periventricular echogenicity without cystic change, suspicious for early white matter injury.")
     ]);
    (str "Scrotum US",
     [
      Item.mk (str "Torsion")
        (str "Affected testis is enlarged and heterogeneous with absent intratesticular flow; spermatic cord shows whirlpool sign. Contralateral testis is normal.");
      Item.mk (str "Epididymo-orchitis")
        (str "Testis and epididymis are enlarged with heterogeneous echogenicity and markedly increased vascularity; small reactive hydrocele present.");
      Item.mk (str "Hydrocele")
        (str "Anechoic fluid collection surrounds the testis without septation; testes and epididymides are otherwise normal.")
     ]);
    (str "Prepubertal Uterus-Ovary US",
     [
      Item.mk (str "Ovarian torsion")
        (str "Affected ovary is enlarged with peripheral follicles and absent central flow; twisted vascular pedicle is suggested by the whirlpool sign.");
      Item.mk (str "Hemorrhagic cyst")
        (str "Complex ovarian cyst with lace-like internal echoes and no internal vascularity, consistent with hemorrhagic cyst.")
     ]);
    (str "Appendix US",
     [
      Item.mk (str "Appendicitis")
        (str "Appendix is noncompressible measuring >6 mm with wall hyperemia and periappendiceal fat stranding; no focal abscess.");
      Item.mk (str "Perforation")
        (str "Appendiceal wall discontinuity with periappendiceal fluid and phlegmon; echogenic foci compatible with appendicolith.");
      Item.mk (str "Mesenteric adenitis")
        (str "Multiple enlarged mesenteric lymph nodes with preserved fatty hilum; appendix is compressible and normal in caliber.")
     ]);
    (str "Bowel US",
     [
      Item.mk (str "Intussusception")
        (str "Target-shaped mass with layered concentric rings in the right abdomen; transient peristalsis noted; no free fluid or pneumoperitoneum sonographically.");
      Item.mk (str "Inflammatory bowel change")
        (str "Segmental bowel wall thickening with stratified mural hyperemia and adjacent mesenteric fat echogenicity; no focal collection.")
     ])
  ].

(** The property names every object literal inherits from
    [Object.prototype]; each of them reads as a truthy value that is not
    an array. *)
Definition objectPrototypeKeys : list jsstring :=
  [str "constructor"; str "__defineGetter__"; str "__defineSetter__";
   str "hasOwnProperty"; str "__lookupGetter__"; str "__lookupSetter__";
   str "isPrototypeOf"; str "propertyIsEnumerable"; str "toString";
   str "valueOf"; str "__proto__"; str "toLocaleString"].

(** The value of [abnormalOptions]: a group of the table, an inherited
    value, or [undefined]. *)
Inductive Options : Type :=
| Presets (items : list Item.t)
| Inherited
| Undefined.

(** [COMMON_ABNORMAL[form.type] || COMMON_ABNORMAL.general]; an array is
    truthy even when empty. *)
Definition abnormalOptions (type : jsstring) : Options :=
  match lookupIn type COMMON_ABNORMAL with
  | Some items => Presets items
  | None =>
      if existsb (jsstring_eqb type) objectPrototypeKeys then Inherited
      else match lookupIn (str "general") COMMON_ABNORMAL with
           | Some items => Presets items
           | None => Undefined
           end
  end.

(** The quick-pick region: the buttons of [abnormalOptions?.map(...)] and
    whether the placeholder "Select an exam type to load presets." is
    shown; [.map] of an inherited value is [undefined], so calling it
    throws. *)
Inductive QuickPicks : Type :=
| Buttons (items : list Item.t) (placeholder : bool)
| RenderThrows.

Definition quickPicks (o : Options) : QuickPicks :=
  match o with
  | Presets items => Buttons items (Nat.eqb (List.length items) 0)
  | Inherited => RenderThrows
  | Undefined => Buttons [] true
  end.

(** ** New, load, delete *)

(** [s.split('T')[0]]: what precedes the first ['T'] (code unit 84). *)
Fixpoint beforeT (s : jsstring) : jsstring :=
  match s with
  | [] => []
  | c :: s' => if (c =? 84)%N then [] else c :: beforeT s'
  end.

(** [handleNew]; [nowISO] is [new Date().toISOString()]. *)
Definition handleNew (nowISO : jsstring) (st : AppState) : AppState :=
  setForm (fun _ => mkForm [] [] [] (beforeT nowISO) [] [] [] [])
    (setCurrentId None st).

(** A stored document or a history item: its own string-valued
    properties, the first match being the property (the component writes
    strings only). *)
Definition jsobject := list (jsstring * jsstring).

(** A document of a snapshot: [d.id] and [d.data()]. *)
Record Doc : Type := mkDoc {
  doc_id : jsstring;
  doc_data : jsobject
}.

(** [{ id: d.id, ...d.data() }]: the properties of the data are written
    over the base [{ id: d.id }]. *)
Definition snapshotItem (d : Doc) : jsobject :=
  doc_data d ++ [(str "id", doc_id d)].

(** [item.key || '']. *)
Definition propOrEmpty (key : jsstring) (item : jsobject) : jsstring :=
  match lookupIn key item with
  | Some v => or_else v []
  | None => []
  end.

(** [handleLoad(item)]. [currentId] receives [item.id] ([None] for
    [undefined]); the sidebar, a state cell of its own, is closed on a
    narrow window. *)
Definition handleLoad (item : jsobject) (innerWidth : Z)
    (st : AppState) (sidebarOpen : bool) : AppState * bool :=
  (setForm (fun _ =>
      mkForm (propOrEmpty (str "name") item)
        (or_else (propOrEmpty (str "id_num") item)
           (or_else (propOrEmpty (str "id") item) []))
        (propOrEmpty (str "rrn") item)
        (propOrEmpty (str "date") item)
        (propOrEmpty (str "type") item)
        (propOrEmpty (str "indication") item)
        (propOrEmpty (str "findings") item)
        (propOrEmpty (str "impression") item))
     (setCurrentId (lookupIn (str "id") item) st),
   if innerWidth <? 768 then false else sidebarOpen).

(** The object a save writes, [{ ...form, updatedAt }]. *)
Definition toObject (d : ReportData) : jsobject :=
  [(str "name", name (data_form d));
   (str "id", id (data_form d));
   (str "rrn", rrn (data_form d));
   (str "date", date (data_form d));
   (str "type", type (data_form d));
   (str "indication", indication (data_form d));
   (str "findings", findings (data_form d));
   (str "impression", impression (data_form d));
   (str "updatedAt", updatedAt d)].

(** What [handleDelete] does to the outside world. *)
Inductive DeleteEvent : Type :=
| StopPropagation
| Confirm (msg : jsstring)
| DeleteDoc (collection docId : jsstring) (settled : Settled unit).

(** How the promise of an async handler settles. *)
Inductive Completion : Type :=
| Fulfilled
| RejectedTypeError
| RejectedBy (message : jsstring).

(** [currentId === id]. *)
Definition currentIdIs (i : jsstring) (st : AppState) : bool :=
  match currentId st with
  | Some c => jsstring_eqb c i
  | None => false
  end.

(** [handleDelete(id, e)]; [confirmed] is the answer to [confirm],
    [deleteDoc] the way the store call settles. With a database and no
    user, reading [user.uid] throws. *)
Definition handleDelete (appId nowISO i : jsstring) (confirmed : bool)
    (deleteDoc : jsstring -> jsstring -> Settled unit) (st : AppState)
  : AppState * list DeleteEvent * Completion :=
  let asked := [StopPropagation; Confirm (str "Delete this report?")] in
  let after (s : AppState) := if currentIdIs i s then handleNew nowISO s else s in
  if negb confirmed then (st, asked, Fulfilled)
  else if dbRef st then
    match user st with
    | None => (st, asked, RejectedTypeError)
    | Some uid =>
        let r := deleteDoc (reportsPath appId uid) i in
        match r with
        | Resolves _ =>
            (after st, asked ++ [DeleteDoc (reportsPath appId uid) i r], Fulfilled)
        | Rejects e =>
            (st, asked ++ [DeleteDoc (reportsPath appId uid) i r], RejectedBy e)
        end
    end
  else (after st, asked, Fulfilled).

(** ** The history list *)

Section History.
(** The time value of [new Date(s)], [NaN] for an invalid date. *)
Variable dateValue : jsstring -> jsnum.

(** [new Date(item.updatedAt)]; a missing property gives an invalid
    date. *)
Definition timeOf (item : jsobject) : jsnum :=
  match lookupIn (str "updatedAt") item with
  | Some s => dateValue s
  | None => NaN
  end.

(** The comparator, [(a, b) => new Date(b.updatedAt) - new Date(a.updatedAt)]. *)
Definition compareFn (a b : jsobject) : jsnum :=
  js_sub (timeOf b) (timeOf a).

(** [Array.prototype.sort] is stable; on a consistent comparator its
    result is the one stable sorted arrangement, computed here by
    insertion. A comparator value that is not negative (zero, positive or
    [NaN]) leaves the earlier element first. *)
Fixpoint insertItem (x : jsobject) (l : list jsobject) : list jsobject :=
  match l with
  | [] => [x]
  | y :: r =>
      if js_lt (compareFn y x) (Num 0) then y :: insertItem x r
      else x :: y :: r
  end.

Fixpoint sortItems (l : list jsobject) : list jsobject :=
  match l with
  | [] => []
  | x :: r => insertItem x (sortItems r)
  end.

(** The snapshot callback: the value passed to [setReports]. *)
Definition onSnapshotList (docs : list Doc) : list jsobject :=
  sortItems (map snapshotItem docs).
End History.

(** The history effect subscribes only with a user and a database. *)
Definition subscribes (st : AppState) : bool :=
  match user st with Some _ => dbRef st | None => false end.

(** ** Measures on traces *)

Definition isAlert (e : Event) : bool :=
  match e with Alert _ => true | _ => false end.

(** The total time waited, in ms. *)
Definition totalDelay (evs : list Event) : Z :=
  fold_right Z.add 0 (delays evs).

(** A string that neither starts nor ends with white space. *)
Definition trimmed (s : jsstring) : Prop :=
  match s with
  | [] => True
  | c :: _ => isWhiteSpace c = false /\ isWhiteSpace (last s c) = false
  end.

(** The value of a decimal digit. *)
Definition digitOf (c : N) : Z := Z.of_N c - 48.

(** The operations of a session. [handleNew] and [handleDelete] are left
    out. *)
Inductive Action : Type :=
| Change (k : Field) (value : jsstring)
| ApplyTemplate (t : jsstring)
| Snippet (text : jsstring)
| Save (now : jsstring) (db : Firestore)
| AiPolish (fn : Callable)
| AiImpression (fn : Callable)
| AiExplain (fn : Callable)
| Load (item : jsobject) (innerWidth : Z).

Section Session.
Variable appId : jsstring.

(** One operation, from its start to the moment it has settled. The
    sidebar, which [handleLoad] may close, is not part of the session
    state. *)
Definition step (a : Action) (st : AppState) : AppState * list Event :=
  match a with
  | Change k v => (handleChange k v st, [])
  | ApplyTemplate t => (handleTemplate TEMPLATES t st, [])
  | Snippet text => (addAbnormalSnippet text st, [])
  | Save now db => handleSave appId now db st
  | AiPolish fn => handleAiPolish fn st
  | AiImpression fn => handleAiImpression fn st
  | AiExplain fn => handleAiExplain fn st
  | Load item w => (fst (handleLoad item w st true), [])
  end.

(** The operations taken in turn: each one is started only when the one
    before it has settled. The component does not enforce this: a
    handler started while another one is awaiting its answer sees the
    state that one started from, and such overlapping runs are not
    among the runs of [run]. *)
Fixpoint run (acts : list Action) (st : AppState) : AppState * list Event :=
  match acts with
  | [] => (st, [])
  | a :: acts' =>
      let '(st1, evs1) := step a st in
      let '(st2, evs2) := run acts' st1 in
      (st2, evs1 ++ evs2)
  end.
End Session.

(** The assumption on the store, for the saves of a run. *)
Definition usesStore (a : Action) : Prop :=
  match a with Save _ db => issuesIds db | _ => True end.

(** An operation that keeps the current report: anything but a load. *)
Definition staysOnReport (a : Action) : Prop :=
  match a with Load _ _ => False | _ => True end.

(** A session that saves, edits the findings and saves again. *)
Definition twoSaves : list Action :=
  [Change f_name (str "Kim");
   Save (str "2026-11-03T09:00:00.000Z") storeExample;
   Change f_findings (str "Normal study.");
   Save (str "2026-11-03T09:05:00.000Z") storeExample].

(** A store that accepts every write and names the new document
    ["doc2"]. *)
Definition storeSecond : Firestore :=
  mkFirestore (fun _ _ => Resolves (str "doc2")) (fun _ _ _ => Resolves tt).

(** The history item of a document [docId] written by a save of [st] at
    [now]. *)
Definition savedItem (docId now : jsstring) (st : AppState) : jsobject :=
  snapshotItem (mkDoc docId (toObject (mkReportData (form st) now))).

(** A named patient without a patient ID, and one with the ID ["P-17"]. *)
Definition sessionKim : AppState := handleChange f_name (str "Kim") freshSession.

Definition sessionKimP17 : AppState := handleChange f_id (str "P-17") sessionKim.

(** ** Further vocabulary *)

(** The form field an input writes. *)
Definition readField (k : Field) (f : Form) : jsstring :=
  match k with
  | f_name => name f
  | f_id => id f
  | f_rrn => rrn f
  | f_date => date f
  | f_indication => indication f
  | f_findings => findings f
  | f_impression => impression f
  end.

Definition Field_eqb (a b : Field) : bool :=
  match a, b with
  | f_name, f_name | f_id, f_id | f_rrn, f_rrn | f_date, f_date
  | f_indication, f_indication | f_findings, f_findings
  | f_impression, f_impression => true
  | _, _ => false
  end.

(** The requests the cloud function lets through to the model: a known
    mode, and findings unless the mode is ['explain']. *)
Definition reachesModel (data : option Req.t) : bool :=
  match data with
  | None => false
  | Some d =>
      match Req.mode d with
      | None => false
      | Some m =>
          jsstring_eqb m (str "explain")
          || ((jsstring_eqb m (str "polish") || jsstring_eqb m (str "impression"))
              && truthy (match Req.findings d with Some f => f | None => [] end))
      end
  end.

(** The error messages of the cloud function. *)
Definition functionErrors : list jsstring :=
  [str "mode is required"; str "findings are required";
   str "Unsupported mode"; str "AI generation failed"].

(** [a] is at least as recent as [b], both dates being valid. *)
Definition notOlder (dateValue : jsstring -> jsnum) (a b : jsobject) : Prop :=
  exists x y, timeOf dateValue a = Num x /\ timeOf dateValue b = Num y /\ y <= x.

(** Every item has a valid date. *)
Definition datesValid (dateValue : jsstring -> jsnum) (l : list jsobject) : Prop :=
  Forall (fun i => exists x, timeOf dateValue i = Num x) l.

(** A snippet with a label and a text. *)
Definition itemFilled (it : Item.t) : bool :=
  truthy (Item.label it) && truthy (Item.text it).

(** A group with at least one snippet, all of them filled. *)
Definition groupFilled (g : jsstring * list Item.t) : bool :=
  negb (Nat.eqb (List.length (snd g)) 0) && forallb itemFilled (snd g).

(** A stand-in clock for the worked examples: the timestamp read as an
    integer. *)
Definition clockExample : jsstring -> jsnum := parseInt.

(** A snapshot of three documents, the oldest first. *)
Definition snapshotExample : list Doc :=
  [mkDoc (str "a") [(str "name", str "Kim"); (str "updatedAt", str "100")];
   mkDoc (str "b") [(str "name", str "Lee"); (str "updatedAt", str "300")];
   mkDoc (str "c") [(str "name", str "Park"); (str "updatedAt", str "300")]].

(** The number of store calls of a deletion. *)
Definition deletions (evs : list DeleteEvent) : nat :=
  List.length
    (filter (fun e => match e with DeleteDoc _ _ _ => true | _ => false end) evs).

(** A store call that always goes through. *)
Definition deleteExample : jsstring -> jsstring -> Settled unit :=
  fun _ _ => Resolves tt.

(** A callable that always fails, and one that answers with a text. *)
Definition callableDown : Callable := fun _ => Rejects (str "internal").

Definition callableUp : Callable :=
  fun _ => Resolves (Some (str "The liver is unremarkable.")).

(** Every attempt is answered with status 429. *)
Definition alwaysRateLimited : Legacy.Network :=
  fun _ => Legacy.Response 429 (errorBody (str "Quota exceeded")).

(** A store write that resolved. *)
Definition resolvedWrite (e : Event) : bool :=
  match e with
  | AddDoc _ _ (Resolves _) | SetDocMerge _ _ _ (Resolves _) => true
  | _ => false
  end.

(** A template with findings and an impression. *)
Definition templateFilled (e : jsstring * Template) : bool :=
  truthy (normal (snd e)) && truthy (impression_text (snd e)).

(** A network whose second attempt succeeds after an unreadable answer. *)
Definition brokenThenText : Legacy.Network :=
  fun i =>
    match i with
    | O => Legacy.FetchRejects (str "Failed to fetch")
    | _ => Legacy.Response 200 (textBody (str "  Normal study.  "))
    end.

(* ================================================================== *)
(** * Properties: DemographicResolver *)
(* ================================================================== *)

Lemma rrnEffect_short (today : Today) (s : jsstring) :
  (List.length (replaceHyphens s) < 7)%nat -> rrnEffect today s = emptyAgeSex.
Proof.
  intros Hlen. unfold rrnEffect.
  apply Nat.ltb_lt in Hlen. rewrite Hlen. reflexivity.
Qed.

Lemma rrnEffect_long (today : Today) (s : jsstring) :
  (7 <= List.length (replaceHyphens s))%nat ->
  rrnEffect today s =
  {| age := AgeNumber (rrn_age (replaceHyphens s) today);
     sex := rrn_sex (replaceHyphens s) |}.
Proof.
  intros Hlen. unfold rrnEffect.
  apply Nat.ltb_ge in Hlen. rewrite Hlen. reflexivity.
Qed.

(** A digit is never a hyphen, so digits survive [replaceHyphens]. *)
Lemma digitCount_le_stripped (s : jsstring) :
  (digitCount s <= List.length (replaceHyphens s))%nat.
Proof.
  unfold digitCount, replaceHyphens.
  induction s as [|c s IH]; simpl; [lia|].
  destruct (isDigit c) eqn:Hd; destruct (c =? 45)%N eqn:Hh; simpl; try lia.
  unfold isDigit in Hd. apply N.eqb_eq in Hh. subst c. discriminate Hd.
Qed.

(** On identifiers written with digits and hyphens only, the guard of the
    effect is the digit count. *)
Lemma stripped_length_digits_hyphens (s : jsstring) :
  forallb (fun c => isDigit c || (c =? 45)%N) s = true ->
  List.length (replaceHyphens s) = digitCount s.
Proof.
  unfold digitCount, replaceHyphens.
  induction s as [|c s IH]; simpl; [reflexivity|].
  intros H. apply andb_true_iff in H as [Hc Hs].
  specialize (IH Hs).
  destruct (isDigit c) eqn:Hd; destruct (c =? 45)%N eqn:Hh; simpl in *;
    try lia; try discriminate.
  unfold isDigit in Hd. apply N.eqb_eq in Hh. subst c. discriminate Hd.
Qed.

(** C2, as stated, fails: ["88.01.01"] has six digits, yet the effect keeps
    the dots (only hyphens are removed), finds eight characters, and
    derives an age and a sex. *)
Lemma C2_counterexample_dot_separators :
  ~ ((digitCount (str "88.01.01") < 7)%nat ->
     rrnEffect today_example (str "88.01.01") = emptyAgeSex).
Proof.
  intros H.
  assert (Hd : (digitCount (str "88.01.01") < 7)%nat) by (vm_compute; lia).
  specialize (H Hd). vm_compute in H. discriminate H.
Qed.

(** C2 (amended): for every identifier whose length after removing its
    hyphens is below 7, the effect sets an empty age and an empty sex. The
    effect is a total function, so it yields a result on every string. *)
Theorem C2_rrnEffect_short_is_empty :
  forall (today : Today) (nationalId : jsstring),
    (List.length (replaceHyphens nationalId) < 7)%nat ->
    rrnEffect today nationalId = emptyAgeSex.
Proof.
  intros today s H. now apply rrnEffect_short.
Qed.

Lemma C2_rrnEffect_short_is_empty_witness :
  (List.length (replaceHyphens (str "8801-01")) < 7)%nat
  /\ rrnEffect today_example (str "8801-01") = emptyAgeSex.
Proof.
  split; [vm_compute; lia|].
  apply (C2_rrnEffect_short_is_empty today_example (str "8801-01")).
  vm_compute; lia.
Defined.

(** C5: for ["880101-1234567"] the effect reads the code digit 1, hence
    century 1900, birth year 1988, month index 0, day 1 and sex Male; on
    every valid current date the age is the current year minus 1988, with
    no decrement. *)
Theorem C5_rrnEffect_880101 :
  forall today : Today,
    valid_today today ->
    let rrn := replaceHyphens (str "880101-1234567") in
    rrn_digit rrn = Num 1
    /\ rrn_yearPrefix rrn = 1900
    /\ rrn_year rrn = Num 1988
    /\ rrn_month rrn = Num 0
    /\ rrn_day rrn = Num 1
    /\ rrn_sex rrn = Male
    /\ rrn_decrement rrn today = false
    /\ rrnEffect today (str "880101-1234567") =
       {| age := AgeNumber (Num (getFullYear today - 1988)); sex := Male |}.
Proof.
  intros today [[Hm0 Hm1] [Hd0 Hd1]] rrn.
  assert (Hdigit : rrn_digit rrn = Num 1) by reflexivity.
  assert (Hmonth : rrn_month rrn = Num 0) by reflexivity.
  assert (Hday : rrn_day rrn = Num 1) by reflexivity.
  assert (Hyear : rrn_year rrn = Num 1988) by reflexivity.
  assert (Hdec : rrn_decrement rrn today = false).
  { unfold rrn_decrement. rewrite Hmonth, Hday. simpl.
    apply orb_false_iff. split.
    - apply Z.ltb_ge. lia.
    - apply andb_false_iff. right. apply Z.ltb_ge. lia. }
  repeat split; try reflexivity; try assumption.
  rewrite rrnEffect_long by (vm_compute; lia).
  fold rrn. unfold rrn_age. rewrite Hdec, Hyear. reflexivity.
Qed.

Lemma C5_rrnEffect_880101_witness :
  valid_today today_example
  /\ rrnEffect today_example (str "880101-1234567") =
     {| age := AgeNumber (Num 38); sex := Male |}.
Proof.
  assert (Hv : valid_today today_example) by (unfold valid_today; simpl; lia).
  split; [exact Hv|].
  exact (proj2 (proj2 (proj2 (proj2 (proj2 (proj2 (proj2
    (C5_rrnEffect_880101 today_example Hv)))))))).
Defined.

(* ================================================================== *)
(** * Properties: templates and snippets *)
(* ================================================================== *)

Lemma or_else_empty (s : jsstring) : or_else s [] = s.
Proof. destruct s; reflexivity. Qed.

Lemma truthy_nonempty (s : jsstring) : truthy s = true <-> s <> [].
Proof. destruct s; simpl; split; intros; congruence. Qed.

Lemma truthy_empty (s : jsstring) : truthy s = false <-> s = [].
Proof. destruct s; simpl; split; intros; congruence. Qed.

Lemma endsWith_app (p s : jsstring) : endsWith (p ++ s) s = true.
Proof.
  unfold endsWith. rewrite length_app.
  apply andb_true_iff. split.
  - apply Nat.leb_le. lia.
  - replace (List.length p + List.length s - List.length s)%nat
      with (List.length p + 0)%nat by lia.
    rewrite skipn_app, Nat.add_0_r, skipn_all.
    replace (List.length p - List.length p)%nat with 0%nat by lia.
    simpl. unfold jsstring_eqb.
    destruct (list_eq_dec N.eq_dec s s); congruence.
Qed.

(** C6: on non-empty findings [f], [addAbnormalSnippet(text)] sets the
    findings to [f], two line feeds and [text]: the length is
    [len f + 2 + len text] and the new findings end with [text]; on empty
    findings it sets them to [text]; in both cases the old findings are a
    prefix of the new ones, so nothing is deleted. *)
Theorem C6_addAbnormalSnippet_appends :
  forall (st : AppState) (text : jsstring),
    let f := findings (form st) in
    let f' := findings (form (addAbnormalSnippet text st)) in
    (f <> [] ->
       f' = f ++ nl ++ nl ++ text
       /\ List.length f' = (List.length f + 2 + List.length text)%nat
       /\ endsWith f' text = true)
    /\ (f = [] -> f' = text)
    /\ (exists added, f' = f ++ added).
Proof.
  intros st text f f'. subst f f'. simpl.
  destruct (findings (form st)) as [|c f] eqn:Hf; simpl.
  - split; [intros H; congruence|]. split; [reflexivity|].
    exists text. reflexivity.
  - split.
    + intros _. split; [reflexivity|]. split.
      * simpl. rewrite length_app. simpl. lia.
      * replace (c :: f ++ 10%N :: 10%N :: text)
          with ((c :: f ++ nl ++ nl) ++ text)
          by (simpl; rewrite <- app_assoc; reflexivity).
        apply endsWith_app.
    + split; [intros H; discriminate H|].
      exists (nl ++ nl ++ text). reflexivity.
Qed.

Lemma C6_addAbnormalSnippet_appends_witness :
  let st := handleChange f_findings (str "Normal liver.") freshSession in
  findings (form st) <> []
  /\ findings (form (addAbnormalSnippet (str "Free fluid.") st)) =
     str "Normal liver." ++ nl ++ nl ++ str "Free fluid.".
Proof.
  intros st.
  assert (Hne : findings (form st) <> []) by (vm_compute; discriminate).
  split; [exact Hne|].
  exact (proj1 (proj1 (C6_addAbnormalSnippet_appends st (str "Free fluid.")) Hne)).
Defined.

(** C7: [handleTemplate(t)] applied twice in a row leaves the state it
    leaves when applied once; the findings and the impression become the
    template's texts when the catalog has [t], and empty strings
    otherwise, whatever they were before. This holds for any catalog, in
    particular for the tables of both components. *)
Theorem C7_handleTemplate_idempotent :
  forall (catalog : Catalog) (t : jsstring) (st : AppState),
    let once := handleTemplate catalog t st in
    handleTemplate catalog t once = once
    /\ (forall e, lookup t catalog = Some e ->
          findings (form once) = normal e
          /\ impression (form once) = impression_text e)
    /\ (lookup t catalog = None ->
          findings (form once) = [] /\ impression (form once) = []).
Proof.
  intros catalog t st once. subst once.
  split; [reflexivity|]. simpl.
  unfold template_normal, template_impression.
  split.
  - intros e He. rewrite He, !or_else_empty. split; reflexivity.
  - intros Hn. rewrite Hn. split; reflexivity.
Qed.

Lemma C7_handleTemplate_idempotent_witness :
  let st := handleChange f_findings (str "draft") freshSession in
  lookup (str "Bowel US") TEMPLATES <> None
  /\ lookup (str "Brain MRI") TEMPLATES = None
  /\ impression (form (handleTemplate TEMPLATES (str "Bowel US") st)) =
     str "Normal bowel ultrasound."
  /\ findings (form (handleTemplate TEMPLATES (str "Brain MRI") st)) = [].
Proof.
  intros st.
  assert (Hn : lookup (str "Brain MRI") TEMPLATES = None) by (vm_compute; reflexivity).
  split; [vm_compute; discriminate|].
  split; [exact Hn|].
  split.
  - set (e := match lookup (str "Bowel US") TEMPLATES with
              | Some e => e
              | None => mkTemplate [] []
              end).
    assert (He : lookup (str "Bowel US") TEMPLATES = Some e)
      by (vm_compute; reflexivity).
    exact (proj2 (proj1 (proj2
      (C7_handleTemplate_idempotent TEMPLATES (str "Bowel US") st)) e He)).
  - exact (proj1 (proj2 (proj2
      (C7_handleTemplate_idempotent TEMPLATES (str "Brain MRI") st)) Hn)).
Defined.

(** C9: [handleTemplate] changes only [type], [findings] and [impression]
    of the form, and [addAbnormalSnippet] only [findings]; every other
    form field and every other piece of component state is left as it
    was. *)
Theorem C9_template_and_snippet_frame :
  forall (catalog : Catalog) (t text : jsstring) (st : AppState),
    let a := handleTemplate catalog t st in
    let b := addAbnormalSnippet text st in
    (name (form a) = name (form st)
     /\ id (form a) = id (form st)
     /\ rrn (form a) = rrn (form st)
     /\ date (form a) = date (form st)
     /\ indication (form a) = indication (form st)
     /\ a = setForm (fun _ => form a) st)
    /\ (name (form b) = name (form st)
        /\ id (form b) = id (form st)
        /\ rrn (form b) = rrn (form st)
        /\ date (form b) = date (form st)
        /\ type (form b) = type (form st)
        /\ indication (form b) = indication (form st)
        /\ impression (form b) = impression (form st)
        /\ b = setForm (fun _ => form b) st).
Proof.
  intros catalog t text st a b. subst a b.
  repeat split.
Qed.

(* ================================================================== *)
(** * Properties: save *)
(* ================================================================== *)

Lemma jsstring_eqb_refl (s : jsstring) : jsstring_eqb s s = true.
Proof. unfold jsstring_eqb. destruct (list_eq_dec N.eq_dec s s); congruence. Qed.

Lemma jsstring_eqb_eq (a b : jsstring) : jsstring_eqb a b = true <-> a = b.
Proof.
  unfold jsstring_eqb. destruct (list_eq_dec N.eq_dec a b); split; congruence.
Qed.

Lemma no_gateway_persistsNothing (evs : list Event) :
  forallb (fun e => negb (isGatewayCall e)) evs = true ->
  forallb persistsNothing evs = true.
Proof.
  induction evs as [|e evs IH]; simpl; [reflexivity|].
  intros H. apply andb_true_iff in H as [He Hs].
  rewrite (IH Hs), andb_true_r. destruct e; simpl in *; congruence.
Qed.

Lemma no_gateway_updatesOnly (cid : jsstring) (evs : list Event) :
  forallb (fun e => negb (isGatewayCall e)) evs = true ->
  forallb (updatesOnly cid) evs = true.
Proof.
  induction evs as [|e evs IH]; simpl; [reflexivity|].
  intros H. apply andb_true_iff in H as [He Hs].
  rewrite (IH Hs), andb_true_r. destruct e; simpl in *; congruence.
Qed.

(** The bridge never touches the store. *)
Lemma callAiFunction_no_gateway fn st m pf pi :
  forallb (fun e => negb (isGatewayCall e))
    (snd (callAiFunction fn st m pf pi)) = true.
Proof.
  unfold callAiFunction.
  destruct (functionsRef st); simpl; [|reflexivity].
  destruct (fn _); reflexivity.
Qed.

Lemma currentId_write_back upd r st :
  currentId (write_back upd r st) = currentId st.
Proof. unfold write_back. destruct r as [r|]; [destruct (truthy r)|]; reflexivity. Qed.

(** What the three AI handlers can do: no store access, and [currentId]
    is kept. *)
Lemma ai_handlers_keep_id (a : Action) (appId : jsstring) (st : AppState) :
  match a with AiPolish _ | AiImpression _ | AiExplain _ => True | _ => False end ->
  currentId (fst (step appId a st)) = currentId st
  /\ forallb (fun e => negb (isGatewayCall e)) (snd (step appId a st)) = true.
Proof.
  destruct a; simpl; try contradiction; intros _.
  - unfold handleAiPolish.
    destruct (truthy (findings (form st))); simpl; [|split; reflexivity].
    pose proof (callAiFunction_no_gateway fn (setAiLoading (Loading polish) st)
                  polish (Some (findings (form st))) None) as H.
    destruct (callAiFunction _ _ _ _ _) as [r evs]. simpl in *.
    rewrite currentId_write_back. split; [reflexivity|exact H].
  - unfold handleAiImpression.
    destruct (truthy (findings (form st))); simpl; [|split; reflexivity].
    pose proof (callAiFunction_no_gateway fn
                  (setAiLoading (Loading impression_mode) st)
                  impression_mode (Some (findings (form st))) None) as H.
    destruct (callAiFunction _ _ _ _ _) as [r evs]. simpl in *.
    rewrite currentId_write_back. split; [reflexivity|exact H].
  - unfold handleAiExplain.
    destruct (negb (truthy (findings (form st)))
              && negb (truthy (impression (form st)))); simpl;
      [split; reflexivity|].
    match goal with
    | |- context [callAiFunction ?f ?s ?m ?a ?b] =>
        pose proof (callAiFunction_no_gateway f s m a b) as H;
        destruct (callAiFunction f s m a b) as [r evs]
    end.
    simpl in *. split; [reflexivity|exact H].
Qed.

(** A save with a truthy [currentId] keeps it and, at most, updates that
    document. *)
Lemma handleSave_with_id appId now db st cid :
  currentId st = Some cid -> truthy cid = true ->
  fst (handleSave appId now db st) = st
  /\ forallb (updatesOnly cid) (snd (handleSave appId now db st)) = true.
Proof.
  intros Hc Ht. unfold handleSave.
  destruct (user st) as [uid|]; [|split; reflexivity].
  destruct (dbRef st); [|split; reflexivity].
  destruct (negb (truthy (name (form st)))); [split; reflexivity|].
  rewrite Hc. simpl. rewrite Ht. simpl.
  rewrite jsstring_eqb_refl.
  destruct (setDoc db _ _ _); split; reflexivity.
Qed.

(** A save with a falsy [currentId] either persists nothing and keeps the
    id falsy, or creates one document and adopts its id. *)
Lemma handleSave_without_id appId now db st :
  currentId_truthy (currentId st) = false -> issuesIds db ->
  (fst (handleSave appId now db st) = st
   /\ forallb persistsNothing (snd (handleSave appId now db st)) = true)
  \/ (exists cid c d,
        truthy cid = true
        /\ handleSave appId now db st =
           (setCurrentId (Some cid) st,
            [AddDoc c d (Resolves cid);
             Alert (str "Report saved successfully.")])).
Proof.
  intros Hc Hdb. unfold handleSave.
  destruct (user st) as [uid|]; [|left; split; reflexivity].
  destruct (dbRef st); [|left; split; reflexivity].
  destruct (negb (truthy (name (form st)))); [left; split; reflexivity|].
  rewrite Hc.
  destruct (addDoc db _ _) as [ref_id|e] eqn:Hadd.
  - right. exists ref_id. eexists. eexists. split; [|reflexivity].
    exact (Hdb _ _ _ Hadd).
  - left. split; reflexivity.
Qed.

Lemma step_with_id appId a st cid :
  currentId st = Some cid -> truthy cid = true -> staysOnReport a ->
  currentId (fst (step appId a st)) = Some cid
  /\ forallb (updatesOnly cid) (snd (step appId a st)) = true.
Proof.
  intros Hc Ht Hstay.
  destruct a; try contradiction; try (simpl; split; [exact Hc|reflexivity]).
  - simpl. destruct (handleSave_with_id appId now db st cid Hc Ht) as [H1 H2].
    rewrite H1. split; [exact Hc|exact H2].
  - destruct (ai_handlers_keep_id (AiPolish fn) appId st I) as [H1 H2].
    rewrite H1. split; [exact Hc|]. now apply no_gateway_updatesOnly.
  - destruct (ai_handlers_keep_id (AiImpression fn) appId st I) as [H1 H2].
    rewrite H1. split; [exact Hc|]. now apply no_gateway_updatesOnly.
  - destruct (ai_handlers_keep_id (AiExplain fn) appId st I) as [H1 H2].
    rewrite H1. split; [exact Hc|]. now apply no_gateway_updatesOnly.
Qed.

Lemma run_with_id appId acts : forall st cid,
  currentId st = Some cid -> truthy cid = true ->
  Forall staysOnReport acts ->
  currentId (fst (run appId acts st)) = Some cid
  /\ forallb (updatesOnly cid) (snd (run appId acts st)) = true.
Proof.
  induction acts as [|a acts IH]; intros st cid Hc Ht Hstay; simpl.
  - split; [exact Hc|reflexivity].
  - inversion Hstay as [|a' acts' Hsa Hsacts]; subst.
    destruct (step_with_id appId a st cid Hc Ht Hsa) as [H1 H2].
    destruct (step appId a st) as [st1 evs1]. simpl in *.
    destruct (IH st1 cid H1 Ht Hsacts) as [H3 H4].
    destruct (run appId acts st1) as [st2 evs2]. simpl in *.
    split; [exact H3|]. rewrite forallb_app, H2, H4. reflexivity.
Qed.

Lemma step_without_id appId a st :
  currentId_truthy (currentId st) = false -> usesStore a ->
  staysOnReport a ->
  (currentId_truthy (currentId (fst (step appId a st))) = false
   /\ forallb persistsNothing (snd (step appId a st)) = true)
  \/ (exists cid c d,
        truthy cid = true
        /\ currentId (fst (step appId a st)) = Some cid
        /\ snd (step appId a st) =
           [AddDoc c d (Resolves cid);
            Alert (str "Report saved successfully.")]).
Proof.
  intros Hc Hok Hstay.
  destruct a; try contradiction;
    try (left; simpl; split; [exact Hc|reflexivity]).
  - simpl in *.
    destruct (handleSave_without_id appId now db st Hc Hok)
      as [[H1 H2]|(cid & c & d & Ht & Heq)].
    + left. rewrite H1. split; [exact Hc|exact H2].
    + right. exists cid, c, d. rewrite Heq. repeat split. exact Ht.
  - left. destruct (ai_handlers_keep_id (AiPolish fn) appId st I) as [H1 H2].
    rewrite H1. split; [exact Hc|]. now apply no_gateway_persistsNothing.
  - left. destruct (ai_handlers_keep_id (AiImpression fn) appId st I) as [H1 H2].
    rewrite H1. split; [exact Hc|]. now apply no_gateway_persistsNothing.
  - left. destruct (ai_handlers_keep_id (AiExplain fn) appId st I) as [H1 H2].
    rewrite H1. split; [exact Hc|]. now apply no_gateway_persistsNothing.
Qed.

Lemma run_createdOnce appId acts : forall st,
  currentId_truthy (currentId st) = false ->
  Forall usesStore acts ->
  Forall staysOnReport acts ->
  createdOnce (fst (run appId acts st)) (snd (run appId acts st)).
Proof.
  induction acts as [|a acts IH]; intros st Hc Hok Hstay; simpl.
  - left. split; [exact Hc|reflexivity].
  - inversion Hok as [|a' acts' Ha Hacts]; subst.
    inversion Hstay as [|a' acts' Hsa Hsacts]; subst.
    destruct (step_without_id appId a st Hc Ha Hsa)
      as [[H1 H2]|(cid & c & d & Ht & H1 & H2)].
    + destruct (step appId a st) as [st1 evs1]. simpl in *.
      specialize (IH st1 H1 Hacts Hsacts).
      destruct (run appId acts st1) as [st2 evs2]. simpl in *.
      destruct IH as [[H3 H4]|(cid & pre & c & d & post & H3 & H4 & H5 & H6 & H7)].
      * left. split; [exact H3|]. rewrite forallb_app, H2, H4. reflexivity.
      * right. exists cid, (evs1 ++ pre), c, d, post.
        repeat split; try assumption.
        -- rewrite H5, app_assoc. reflexivity.
        -- rewrite forallb_app, H2, H6. reflexivity.
    + destruct (step appId a st) as [st1 evs1]. simpl in *.
      destruct (run_with_id appId acts st1 cid H1 Ht Hsacts) as [H3 H4].
      destruct (run appId acts st1) as [st2 evs2]. simpl in *.
      right. exists cid, [], c, d,
        (Alert (str "Report saved successfully.") :: evs2).
      rewrite H2. repeat split; try assumption.
Qed.

(** C3, as stated, fails: in local mode a save with an empty name returns
    at the first guard, before the name is looked at, and reports
    nothing. *)
Lemma C3_counterexample_local_mode :
  ~ (name (form localSession) = [] ->
     In (Alert (str "Patient Name is required."))
        (snd (handleSave (str "sonograph-x") (str "2026-11-03T09:00:00.000Z")
                storeExample localSession))).
Proof.
  intros H. specialize (H eq_refl). vm_compute in H. exact H.
Qed.

(** C3 (amended): a save with an empty name makes no gateway call and
    leaves the state as it was; it reports "Patient Name is required."
    when a user is signed in and the database is configured, and returns
    silently otherwise. *)
Theorem C3_handleSave_empty_name :
  forall (appId now : jsstring) (db : Firestore) (st : AppState),
    name (form st) = [] ->
    let r := handleSave appId now db st in
    fst r = st
    /\ filter isGatewayCall (snd r) = []
    /\ (forall uid, user st = Some uid -> dbRef st = true ->
          snd r = [Alert (str "Patient Name is required.")])
    /\ (user st = None \/ dbRef st = false -> snd r = []).
Proof.
  intros appId now db st Hname r. subst r. unfold handleSave.
  rewrite Hname. simpl.
  destruct (user st) as [uid|]; destruct (dbRef st); simpl;
    repeat split; try reflexivity; try congruence;
    intros [H|H]; congruence.
Qed.

Lemma C3_handleSave_empty_name_witness :
  name (form freshSession) = []
  /\ handleSave (str "sonograph-x") (str "2026-11-03T09:00:00.000Z")
       storeExample freshSession =
     (freshSession, [Alert (str "Patient Name is required.")]).
Proof.
  split; [reflexivity|].
  pose proof (C3_handleSave_empty_name (str "sonograph-x")
                (str "2026-11-03T09:00:00.000Z") storeExample freshSession
                eq_refl) as [H1 [_ [H3 _]]].
  specialize (H3 (str "u1") eq_refl eq_refl).
  rewrite (surjective_pairing (handleSave _ _ _ _)).
  rewrite H1, H3. reflexivity.
Defined.

(** C4, at the inputs where the code departs from it. A named report
    without patient ID is saved (the store creates ["doc1"] and the id is
    adopted), the snapshot hands the saved document back, and the user
    loads it from the history list: [currentId] becomes the stored
    patient-ID field, here [''], so the next save creates a second
    document. With the patient ID ["P-17"] the next save updates the
    document named ["P-17"], not ["doc1"]. And two saves started from the
    same render, the second before the first has settled, both create. *)
Theorem C4_save_load_save_creates_again :
  let appId := str "sonograph-x" in
  let path := reportsPath appId (str "u1") in
  let first := handleSave appId (str "t1") storeExample sessionKim in
  let loaded :=
    fst (handleLoad (savedItem (str "doc1") (str "t1") sessionKim)
           1024 (fst first) true) in
  let second := handleSave appId (str "t2") storeSecond loaded in
  let firstP := handleSave appId (str "t1") storeExample sessionKimP17 in
  let loadedP :=
    fst (handleLoad (savedItem (str "doc1") (str "t1") sessionKimP17)
           1024 (fst firstP) true) in
  let secondP := handleSave appId (str "t2") storeSecond loadedP in
  (snd first =
     [AddDoc path (mkReportData (form sessionKim) (str "t1"))
        (Resolves (str "doc1"));
      Alert (str "Report saved successfully.")]
   /\ currentId (fst first) = Some (str "doc1")
   /\ form loaded = form sessionKim
   /\ currentId loaded = Some []
   /\ snd second =
      [AddDoc path (mkReportData (form sessionKim) (str "t2"))
         (Resolves (str "doc2"));
       Alert (str "Report saved successfully.")]
   /\ currentId (fst second) = Some (str "doc2"))
  /\ (currentId (fst firstP) = Some (str "doc1")
      /\ currentId loadedP = Some (str "P-17")
      /\ snd secondP =
         [SetDocMerge path (str "P-17")
            (mkReportData (form sessionKimP17) (str "t2")) (Resolves tt);
          Alert (str "Report saved successfully.")])
  /\ (firstn 1 (snd (handleSave appId (str "t1") storeExample sessionKim))
      = [AddDoc path (mkReportData (form sessionKim) (str "t1"))
           (Resolves (str "doc1"))]
      /\ firstn 1 (snd (handleSave appId (str "t2") storeSecond sessionKim))
         = [AddDoc path (mkReportData (form sessionKim) (str "t2"))
              (Resolves (str "doc2"))]).
Proof.
  cbv zeta. repeat split; vm_compute; reflexivity.
Qed.

Lemma storeExample_issuesIds : issuesIds storeExample.
Proof.
  intros c d i H. simpl in H. inversion H. reflexivity.
Defined.

(** What the worked session does: one create, then one update of the
    created document. *)
Example twoSaves_trace :
  map isGatewayCall (snd (run (str "sonograph-x") twoSaves freshSession))
    = [true; false; true; false]
  /\ currentId (fst (run (str "sonograph-x") twoSaves freshSession))
     = Some (str "doc1")
  /\ forallb (updatesOnly (str "doc1"))
       (skipn 1 (snd (run (str "sonograph-x") twoSaves freshSession))) = true.
Proof. vm_compute. repeat split. Qed.

(* ================================================================== *)
(** * Properties: the explain mode *)
(* ================================================================== *)

(** C10: whatever the bridge answers, [handleAiExplain] leaves the form
    (in particular findings and impression) and [currentId] as they were:
    either the report is empty and the state is untouched, or the modal is
    opened, [aiLoading] is back to [false], and some text is stored in
    [aiExplanation]. This holds for the handler of both components. *)
Theorem C10_handleAiExplain_frame :
  forall (fn : Callable) (net : Legacy.Network) (st : AppState),
    let a := fst (handleAiExplain fn st) in
    let b := fst (Legacy.handleAiExplain net st) in
    (form a = form st
     /\ currentId a = currentId st
     /\ (a = st
         \/ exists text,
              a = setAiLoading NotLoading
                    (setAiExplanation text (setExplainModalOpen true st))))
    /\ (form b = form st
        /\ currentId b = currentId st
        /\ (b = st
            \/ exists text,
                 b = setAiLoading NotLoading
                       (setAiExplanation text (setExplainModalOpen true st)))).
Proof.
  intros fn net st a b. subst a b.
  unfold handleAiExplain, Legacy.handleAiExplain.
  destruct (negb (truthy (findings (form st)))
            && negb (truthy (impression (form st)))); simpl.
  - repeat split; left; reflexivity.
  - destruct (callAiFunction _ _ _ _ _) as [r1 evs1].
    destruct (Legacy.callGemini _ _) as [r2 evs2]. simpl.
    repeat split; right; eexists; reflexivity.
Qed.

(* ================================================================== *)
(** * Properties: validation before generation *)
(* ================================================================== *)

(** The three handlers of the current component reject a request whose
    input is missing before the bridge is entered. *)
Lemma handlers_reject_missing_input (fn : Callable) (st : AppState) :
  (findings (form st) = [] ->
     handleAiPolish fn st = (st, [Alert (str "Please enter findings first.")])
     /\ handleAiImpression fn st
        = (st, [Alert (str "Please enter findings first.")]))
  /\ (findings (form st) = [] -> impression (form st) = [] ->
        handleAiExplain fn st = (st, [Alert (str "Report is empty.")])).
Proof.
  unfold handleAiPolish, handleAiImpression, handleAiExplain.
  split.
  - intros Hf. rewrite Hf. split; reflexivity.
  - intros Hf Hi. rewrite Hf, Hi. reflexivity.
Qed.

(** So do the three handlers of the earlier component. *)
Lemma legacy_handlers_reject_missing_input (net : Legacy.Network) (st : AppState) :
  (findings (form st) = [] ->
     Legacy.handleAiPolish net st
       = (st, [Alert (str "Please enter findings first.")])
     /\ Legacy.handleAiImpression net st
        = (st, [Alert (str "Please enter findings first.")]))
  /\ (findings (form st) = [] -> impression (form st) = [] ->
        Legacy.handleAiExplain net st = (st, [Alert (str "Report is empty.")])).
Proof.
  unfold Legacy.handleAiPolish, Legacy.handleAiImpression, Legacy.handleAiExplain.
  split.
  - intros Hf. rewrite Hf. split; reflexivity.
  - intros Hf Hi. rewrite Hf, Hi. reflexivity.
Qed.

(** The cloud function rejects a missing mode, and missing findings in
    every mode but ['explain'], before it calls the model. *)
Lemma generateReportText_requires_findings
    (openai : Functions.OpenAI) (mode imp : option jsstring) :
  mode <> Some (str "explain") ->
  forall f, f = None \/ f = Some [] ->
  exists msg,
    Functions.generateReportText openai (Some (Req.mk mode f imp))
    = (Rejects msg, []).
Proof.
  intros Hm f Hf. unfold Functions.generateReportText.
  destruct mode as [m|]; [|eexists; reflexivity].
  cbn [Req.mode Req.findings Req.impression].
  destruct (truthy m); simpl; [|eexists; reflexivity].
  destruct (jsstring_eqb m (str "explain")) eqn:He.
  - apply jsstring_eqb_eq in He. subst m. congruence.
  - destruct Hf; subst f; simpl; eexists; reflexivity.
Qed.

(** C8, at the input where the code departs from it: called in mode
    ['explain'] with neither findings nor impression, the cloud function
    raises no validation error and calls the model. *)
Theorem C8_generateReportText_explain_unchecked :
  forall openai : Functions.OpenAI,
    exists call rest,
      snd (Functions.generateReportText openai
             (Some (Req.mk (Some (str "explain")) None None)))
      = call :: rest
      /\ Functions.isOpenAICall call = true.
Proof.
  intros openai.
  unfold Functions.generateReportText. simpl.
  destruct (openai _); simpl; eexists; eexists; split; reflexivity.
Qed.

(* ================================================================== *)
(** * Properties: retries *)
(* ================================================================== *)

Section RetryLoop.
Variable net : Legacy.Network.
Variable prompt : jsstring.

Let loop := Legacy.callGemini_from net prompt.

(** One iteration, read through [classify]. *)
Lemma callGemini_from_step (i remaining : nat) :
  loop i (S remaining) =
  match classify (net i) with
  | Success t => (Some (trim t), [Fetch prompt])
  | RateLimited =>
      (fst (loop (S i) remaining),
       [Fetch prompt; SetTimeout (Legacy.backoff i)]
       ++ snd (loop (S i) remaining))
  | Failure e =>
      (fst (loop (S i) remaining),
       [Fetch prompt; ConsoleError [e]]
       ++ (if Nat.eqb i (Legacy.MAX_RETRIES - 1)
           then [Alert (str "AI Service Error: " ++ e)] else [])
       ++ snd (loop (S i) remaining))
  end.
Proof.
  unfold loop. simpl. unfold classify.
  destruct (net i) as [e|status [data|e]]; try reflexivity.
  destruct (Legacy.ok status).
  - destruct (Legacy.candidate_text data); reflexivity.
  - destruct (status =? 429); reflexivity.
Qed.

Lemma requests_app (a b : list Event) :
  requests (a ++ b) = (requests a + requests b)%nat.
Proof. unfold requests. rewrite filter_app, length_app. reflexivity. Qed.


(** The loop sends at most as many requests as it has iterations. *)
Lemma requests_bounded (remaining : nat) : forall i : nat,
  (requests (snd (loop i remaining)) <= remaining)%nat.
Proof.
  induction remaining as [|remaining IH]; intros i.
  - unfold loop. simpl. unfold requests. simpl. lia.
  - rewrite callGemini_from_step. specialize (IH (S i)).
    destruct (classify (net i)); cbn [fst snd].
    + unfold requests. simpl. lia.
    + rewrite requests_app. unfold requests in *. simpl. lia.
    + rewrite !requests_app.
      destruct (Nat.eqb i (Legacy.MAX_RETRIES - 1));
        unfold requests in *; simpl; lia.
Qed.




End RetryLoop.





(* ================================================================== *)
(** * Further properties: DemographicResolver *)
(* ================================================================== *)

Lemma replaceHyphens_app (a b : jsstring) :
  replaceHyphens (a ++ b) = replaceHyphens a ++ replaceHyphens b.
Proof. unfold replaceHyphens. apply filter_app. Qed.

(** X1: where the hyphens stand does not matter: removing one hyphen from
    an identifier, wherever it is, leaves the derived age and sex as they
    were. *)
Theorem rrnEffect_hyphen_anywhere :
  forall (today : Today) (a b : jsstring),
    rrnEffect today (a ++ str "-" ++ b) = rrnEffect today (a ++ b).
Proof.
  intros today a b. unfold rrnEffect.
  rewrite !replaceHyphens_app. reflexivity.
Qed.

Lemma isDigit_cases (c : N) :
  isDigit c = true ->
  In c [48; 49; 50; 51; 52; 53; 54; 55; 56; 57]%N.
Proof.
  unfold isDigit. intros H. apply andb_true_iff in H as [H1 H2].
  apply N.leb_le in H1, H2. simpl.
  assert (c = 48 \/ c = 49 \/ c = 50 \/ c = 51 \/ c = 52 \/ c = 53
          \/ c = 54 \/ c = 55 \/ c = 56 \/ c = 57)%N as Hc by lia.
  intuition auto.
Qed.

Ltac each_digit H :=
  apply isDigit_cases in H; simpl in H;
  repeat (destruct H as [H|H]; [subst|]); try contradiction.

Lemma parseInt_one_digit (c : N) :
  isDigit c = true -> parseInt [c] = Num (digitOf c).
Proof. intros H. each_digit H; reflexivity. Qed.

Lemma parseInt_two_digits (c d : N) :
  isDigit c = true -> isDigit d = true ->
  parseInt [c; d] = Num (10 * digitOf c + digitOf d).
Proof. intros Hc Hd. each_digit Hc; each_digit Hd; reflexivity. Qed.

Lemma digit_parity (c : N) :
  isDigit c = true ->
  js_neq (js_rem (Num (digitOf c)) (Num 2)) (Num 0) = Z.odd (digitOf c).
Proof. intros H. each_digit H; reflexivity. Qed.

(** X2: on an identifier whose first seven characters, hyphens apart, are
    digits YYMMDDC, the age is the current year minus (century + YY),
    less one when today is before month MM, day DD; the century is 1900
    for C in 1, 2, 5, 6 and 2000 otherwise; the sex is Male for an odd C
    and Female for an even one. *)
Theorem rrnEffect_on_digits :
  forall (today : Today) (nationalId : jsstring),
    let r := replaceHyphens nationalId in
    let d (k : nat) := digitOf (nth k r 0%N) in
    let century :=
      if (d 6%nat =? 1) || (d 6%nat =? 2) || (d 6%nat =? 5) || (d 6%nat =? 6)
      then 1900 else 2000 in
    let year := century + (10 * d 0%nat + d 1%nat) in
    let month := 10 * d 2%nat + d 3%nat - 1 in
    let day := 10 * d 4%nat + d 5%nat in
    let before :=
      (getMonth today <? month)
      || ((getMonth today =? month) && (getDate today <? day)) in
    (7 <= List.length r)%nat ->
    forallb isDigit (firstn 7 r) = true ->
    rrnEffect today nationalId =
    {| age := AgeNumber (Num (if before
                              then getFullYear today - year - 1
                              else getFullYear today - year));
       sex := if Z.odd (d 6%nat) then Male else Female |}.
Proof.
  intros today s r d century year month day before Hlen Hdig.
  rewrite rrnEffect_long by exact Hlen.
  fold r. subst before day month year century d.
  destruct r as [|c0 [|c1 [|c2 [|c3 [|c4 [|c5 [|c6 rest]]]]]]];
    simpl in Hlen; try lia.
  simpl in Hdig.
  repeat (apply andb_true_iff in Hdig; destruct Hdig as [?H Hdig]).
  unfold rrn_age, rrn_decrement, rrn_sex, rrn_year, rrn_month, rrn_day,
    rrn_yearPrefix, rrn_digit, charAt, substring.
  cbn [skipn firstn Nat.sub nth].
  rewrite (parseInt_one_digit c6) by assumption.
  rewrite !parseInt_two_digits by assumption.
  rewrite digit_parity by assumption.
  cbn [js_eq js_add js_sub js_lt].
  repeat match goal with
         | |- context [if ?b then _ else _] => destruct b
         end; reflexivity.
Qed.

Lemma rrnEffect_on_digits_witness :
  (7 <= List.length (replaceHyphens (str "150312-4012345")))%nat
  /\ forallb isDigit (firstn 7 (replaceHyphens (str "150312-4012345"))) = true
  /\ rrnEffect today_example (str "150312-4012345") =
     {| age := AgeNumber (Num 11); sex := Female |}.
Proof.
  assert (Hlen : (7 <= List.length (replaceHyphens (str "150312-4012345")))%nat)
    by (vm_compute; lia).
  split; [exact Hlen|]. split; [reflexivity|].
  exact (rrnEffect_on_digits today_example (str "150312-4012345") Hlen eq_refl).
Defined.

(* ================================================================== *)
(** * Further properties: editing, snippets, new report *)
(* ================================================================== *)

Lemma Field_eqb_eq (a b : Field) : Field_eqb a b = true <-> a = b.
Proof. destruct a, b; simpl; split; intros H; congruence. Qed.

(** X3: [handleChange] is a field update: the field written reads back,
    every other field and the rest of the state keep their values, a
    second write to the same field wins, and writes to different fields
    commute. *)
Theorem handleChange_field_update :
  forall (k k' : Field) (v v' : jsstring) (st : AppState),
    readField k (form (handleChange k v st)) = v
    /\ (k' <> k ->
        readField k' (form (handleChange k v st)) = readField k' (form st))
    /\ type (form (handleChange k v st)) = type (form st)
    /\ handleChange k v st = setForm (fun _ => form (handleChange k v st)) st
    /\ handleChange k v' (handleChange k v st) = handleChange k v' st
    /\ (k' <> k ->
        handleChange k v (handleChange k' v' st)
        = handleChange k' v' (handleChange k v st)).
Proof.
  intros k k' v v' st.
  split; [destruct k; reflexivity|].
  split; [intros Hne; destruct k, k'; try reflexivity; congruence|].
  split; [destruct k; reflexivity|].
  split; [destruct k; reflexivity|].
  split; [destruct k; reflexivity|].
  intros Hne; destruct k, k'; try reflexivity; congruence.
Qed.

Lemma handleChange_field_update_witness :
  f_rrn <> f_name
  /\ handleChange f_name (str "Kim") (handleChange f_rrn (str "880101") freshSession)
     = handleChange f_rrn (str "880101") (handleChange f_name (str "Kim") freshSession).
Proof.
  assert (Hne : f_rrn <> f_name) by discriminate.
  split; [exact Hne|].
  exact (proj2 (proj2 (proj2 (proj2 (proj2
    (handleChange_field_update f_name f_rrn (str "Kim") (str "880101")
       freshSession))))) Hne).
Defined.

Lemma lookupIn_In {A : Type} (key : jsstring) (o : list (jsstring * A)) (v : A) :
  lookupIn key o = Some v -> In (key, v) o.
Proof.
  induction o as [|[k w] o IH]; simpl; [discriminate|].
  destruct (jsstring_eqb key k) eqn:He.
  - intros H. inversion H. subst. apply jsstring_eqb_eq in He. subst.
    left. reflexivity.
  - intros H. right. now apply IH.
Qed.

Lemma COMMON_ABNORMAL_filled : forallb groupFilled COMMON_ABNORMAL = true.
Proof. vm_compute. reflexivity. Qed.

Lemma presets_filled (t : jsstring) (items : list Item.t) :
  abnormalOptions t = Presets items ->
  items <> [] /\ forallb itemFilled items = true.
Proof.
  intros H.
  assert (Hin : exists k, In (k, items) COMMON_ABNORMAL).
  { unfold abnormalOptions in H.
    destruct (lookupIn t COMMON_ABNORMAL) as [g|] eqn:Hl.
    - inversion H. subst. exists t. now apply lookupIn_In.
    - destruct (existsb _ _); [discriminate|].
      destruct (lookupIn (str "general") COMMON_ABNORMAL) as [g|] eqn:Hg;
        [|discriminate].
      inversion H. subst. exists (str "general"). now apply lookupIn_In. }
  destruct Hin as [k Hin].
  pose proof COMMON_ABNORMAL_filled as Hall.
  rewrite forallb_forall in Hall. specialize (Hall _ Hin).
  unfold groupFilled in Hall. simpl in Hall.
  apply andb_true_iff in Hall as [Hlen Hitems].
  split; [|exact Hitems].
  intros ->. discriminate Hlen.
Qed.

(** X4: for every exam type that is not a property name inherited from
    [Object.prototype], [abnormalOptions] is a non-empty group of
    snippets, each with a label and a text: the quick picks show buttons
    and never the placeholder. For an inherited name the region throws
    while rendering. *)
Theorem abnormalOptions_never_empty :
  forall t : jsstring,
    (existsb (jsstring_eqb t) objectPrototypeKeys = false ->
     exists items,
       abnormalOptions t = Presets items
       /\ items <> []
       /\ forallb itemFilled items = true
       /\ quickPicks (abnormalOptions t) = Buttons items false)
    /\ (existsb (jsstring_eqb t) objectPrototypeKeys = true ->
        quickPicks (abnormalOptions t) = RenderThrows).
Proof.
  intros t. split.
  - intros Hown.
    destruct (abnormalOptions t) as [items| |] eqn:Ho.
    + destruct (presets_filled t items Ho) as [Hne Hf].
      exists items. repeat split; try assumption.
      simpl. destruct items; [congruence|reflexivity].
    + unfold abnormalOptions in Ho. rewrite Hown in Ho.
      destruct (lookupIn t COMMON_ABNORMAL); [discriminate|].
      vm_compute in Ho. discriminate Ho.
    + unfold abnormalOptions in Ho. rewrite Hown in Ho.
      destruct (lookupIn t COMMON_ABNORMAL); [discriminate|].
      vm_compute in Ho. discriminate Ho.
  - intros Hinh. unfold objectPrototypeKeys in Hinh. simpl in Hinh.
    repeat (apply orb_true_iff in Hinh; destruct Hinh as [Hinh|Hinh];
            [apply jsstring_eqb_eq in Hinh; subst t; vm_compute; reflexivity|]).
    discriminate Hinh.
Qed.

Lemma abnormalOptions_never_empty_witness :
  existsb (jsstring_eqb (str "Brain MRI")) objectPrototypeKeys = false
  /\ existsb (jsstring_eqb (str "constructor")) objectPrototypeKeys = true
  /\ (exists items, abnormalOptions (str "Brain MRI") = Presets items
                    /\ items <> [])
  /\ quickPicks (abnormalOptions (str "constructor")) = RenderThrows.
Proof.
  split; [reflexivity|]. split; [reflexivity|]. split.
  - destruct (proj1 (abnormalOptions_never_empty (str "Brain MRI")) eq_refl)
      as (items & H1 & H2 & _).
    exists items. split; assumption.
  - exact (proj2 (abnormalOptions_never_empty (str "constructor")) eq_refl).
Defined.

(** X5: every exam type of the template selector has a snippet group of
    its own, every group but ['general'] belongs to such a type, and the
    unset type [''] gets the ['general'] group. *)
Theorem templates_and_groups_agree :
  (forall t, In t (map fst TEMPLATES) ->
     exists items, lookupIn t COMMON_ABNORMAL = Some items
                   /\ abnormalOptions t = Presets items)
  /\ (forall g, In g (map fst COMMON_ABNORMAL) ->
        g = str "general" \/ In g (map fst TEMPLATES))
  /\ Some (abnormalOptions []) =
     option_map Presets (lookupIn (str "general") COMMON_ABNORMAL).
Proof.
  split; [|split].
  - intros t Hin. simpl in Hin.
    repeat (destruct Hin as [Hin|Hin];
            [subst t; eexists; split; vm_compute; reflexivity|]).
    contradiction.
  - intros g Hin. simpl in Hin.
    destruct Hin as [Hin|Hin]; [left; symmetry; exact Hin|].
    right.
    repeat (destruct Hin as [Hin|Hin];
            [subst g; vm_compute; tauto|]).
    contradiction.
  - vm_compute. reflexivity.
Qed.

Lemma templates_and_groups_agree_witness :
  In (str "Scrotum US") (map fst TEMPLATES)
  /\ exists items, abnormalOptions (str "Scrotum US") = Presets items.
Proof.
  assert (Hin : In (str "Scrotum US") (map fst TEMPLATES))
    by (vm_compute; tauto).
  split; [exact Hin|].
  destruct (proj1 templates_and_groups_agree (str "Scrotum US") Hin)
    as (items & _ & H).
  exists items. exact H.
Defined.

(** X6: clicking any quick pick offered for any exam type leaves
    non-empty findings that extend the previous ones by at least the
    snippet text. *)
Theorem offered_snippet_extends_findings :
  forall (t : jsstring) (items : list Item.t) (it : Item.t) (st : AppState),
    abnormalOptions t = Presets items ->
    In it items ->
    let st' := addAbnormalSnippet (Item.text it) st in
    findings (form st') <> []
    /\ (List.length (findings (form st)) < List.length (findings (form st')))%nat
    /\ firstn (List.length (findings (form st))) (findings (form st'))
       = findings (form st)
    /\ endsWith (findings (form st')) (Item.text it) = true.
Proof.
  intros t items it st Ho Hin st'. subst st'.
  destruct (presets_filled t items Ho) as [_ Hf].
  rewrite forallb_forall in Hf. specialize (Hf it Hin).
  unfold itemFilled in Hf. apply andb_true_iff in Hf as [_ Ht].
  destruct (Item.text it) as [|c txt] eqn:Htxt; [discriminate|].
  simpl. destruct (findings (form st)) as [|c0 f] eqn:Hfind; simpl.
  - repeat split; try discriminate; try lia.
    apply (endsWith_app [] (c :: txt)).
  - repeat split; try discriminate.
    + rewrite length_app. simpl. lia.
    + f_equal. rewrite firstn_app, firstn_all.
      replace (List.length f - List.length f)%nat with 0%nat by lia.
      simpl. apply app_nil_r.
    + replace (c0 :: f ++ 10%N :: 10%N :: c :: txt)
        with ((c0 :: f ++ nl ++ nl) ++ c :: txt)
        by (simpl; rewrite <- app_assoc; reflexivity).
      apply endsWith_app.
Qed.

Lemma offered_snippet_extends_findings_witness :
  let it := Item.mk (str "Hydrocele")
    (str "Anechoic fluid collection surrounds the testis without septation; testes and epididymides are otherwise normal.") in
  (exists items, abnormalOptions (str "Scrotum US") = Presets items /\ In it items)
  /\ findings (form (addAbnormalSnippet (Item.text it) freshSession)) <> [].
Proof.
  intros it.
  set (items := match abnormalOptions (str "Scrotum US") with
                | Presets l => l
                | _ => []
                end).
  assert (Ho : abnormalOptions (str "Scrotum US") = Presets items)
    by (vm_compute; reflexivity).
  assert (Hin : In it items) by (vm_compute; tauto).
  split; [exists items; split; assumption|].
  exact (proj1 (offered_snippet_extends_findings (str "Scrotum US") items it
                  freshSession Ho Hin)).
Defined.

Lemma beforeT_prefix (d rest : jsstring) :
  forallb (fun c => negb (c =? 84)%N) d = true ->
  beforeT (d ++ 84%N :: rest) = d.
Proof.
  induction d as [|c d IH]; simpl; [reflexivity|].
  intros H. apply andb_true_iff in H as [Hc Hd].
  apply negb_true_iff in Hc. rewrite Hc, (IH Hd). reflexivity.
Qed.

(** X7: [handleNew] drops the persistent id and blanks the form, the date
    being today's timestamp up to its ['T']; the user, the refs and the AI
    state are kept; applied twice it does what it does once; and a save
    issued right after it writes nothing, for the name is empty. *)
Theorem handleNew_resets :
  forall (nowISO : jsstring) (st : AppState),
    let st' := handleNew nowISO st in
    currentId st' = None
    /\ form st' = mkForm [] [] [] (beforeT nowISO) [] [] [] []
    /\ st' = setForm (fun _ => form st') (setCurrentId None st)
    /\ handleNew nowISO st' = st'
    /\ (forall day rest,
          forallb (fun c => negb (c =? 84)%N) day = true ->
          nowISO = day ++ str "T" ++ rest ->
          date (form st') = day)
    /\ (forall appId now db,
          fst (handleSave appId now db st') = st'
          /\ filter isGatewayCall (snd (handleSave appId now db st')) = []).
Proof.
  intros nowISO st st'. subst st'.
  split; [reflexivity|]. split; [reflexivity|]. split; [reflexivity|].
  split; [reflexivity|]. split.
  - intros day rest Hday ->. simpl. now apply beforeT_prefix.
  - intros appId now db. unfold handleSave. simpl.
    destruct (user st); destruct (dbRef st); split; reflexivity.
Qed.

Lemma handleNew_resets_witness :
  forallb (fun c => negb (c =? 84)%N) (str "2026-11-03") = true
  /\ date (form (handleNew (str "2026-11-03T09:00:00.000Z") localSession))
     = str "2026-11-03".
Proof.
  split; [reflexivity|].
  exact (proj1 (proj2 (proj2 (proj2 (proj2
    (handleNew_resets (str "2026-11-03T09:00:00.000Z") localSession)))))
    (str "2026-11-03") (str "09:00:00.000Z") eq_refl eq_refl).
Defined.

(** X8: take the operations in turn, each one started only when the one
    before it has settled, and let none of them load a report. Then after
    [handleNew], whatever the session had saved before, any sequence of
    edits, templates, snippets, AI calls and saves either persists
    nothing or creates exactly one new document and then only updates
    that one. (Overlapping saves and loads are excluded: the component
    does not keep the property there.) *)
Theorem handleNew_then_run_creates_afresh :
  forall (appId nowISO : jsstring) (acts : list Action) (st : AppState),
    Forall usesStore acts ->
    Forall staysOnReport acts ->
    createdOnce (fst (run appId acts (handleNew nowISO st)))
                (snd (run appId acts (handleNew nowISO st))).
Proof.
  intros appId nowISO acts st Hok Hstay.
  apply run_createdOnce; [reflexivity|exact Hok|exact Hstay].
Qed.

Lemma handleNew_then_run_creates_afresh_witness :
  Forall usesStore twoSaves
  /\ Forall staysOnReport twoSaves
  /\ createdOnce
       (fst (run (str "sonograph-x") twoSaves
               (handleNew (str "2026-11-03T09:00:00.000Z")
                  (setCurrentId (Some (str "old")) freshSession))))
       (snd (run (str "sonograph-x") twoSaves
               (handleNew (str "2026-11-03T09:00:00.000Z")
                  (setCurrentId (Some (str "old")) freshSession)))).
Proof.
  assert (Hok : Forall usesStore twoSaves).
  { unfold twoSaves.
    repeat (constructor; simpl; try exact I; try exact storeExample_issuesIds). }
  assert (Hstay : Forall staysOnReport twoSaves).
  { unfold twoSaves. repeat (constructor; simpl; try exact I). }
  split; [exact Hok|]. split; [exact Hstay|].
  exact (handleNew_then_run_creates_afresh (str "sonograph-x")
           (str "2026-11-03T09:00:00.000Z") twoSaves
           (setCurrentId (Some (str "old")) freshSession) Hok Hstay).
Defined.

(* ================================================================== *)
(** * Further properties: history, load, delete *)
(* ================================================================== *)

Lemma lookupIn_app {A : Type} (key : jsstring) (a b : list (jsstring * A)) :
  lookupIn key (a ++ b) =
  match lookupIn key a with
  | Some v => Some v
  | None => lookupIn key b
  end.
Proof.
  induction a as [|[k v] a IH]; simpl; [reflexivity|].
  destruct (jsstring_eqb key k); [reflexivity|exact IH].
Qed.

(** X9: the [id] of a history item is the document's own [id] field when
    its data has one, and the document id only otherwise; every other
    property is the one of the data. *)
Theorem snapshotItem_id_shadowed :
  forall d : Doc,
    lookupIn (str "id") (snapshotItem d) =
    match lookupIn (str "id") (doc_data d) with
    | Some v => Some v
    | None => Some (doc_id d)
    end
    /\ (forall key, key <> str "id" ->
          lookupIn key (snapshotItem d) = lookupIn key (doc_data d)).
Proof.
  intros d. unfold snapshotItem. split.
  - rewrite lookupIn_app. reflexivity.
  - intros key Hne. rewrite lookupIn_app. simpl.
    destruct (lookupIn key (doc_data d)); [reflexivity|].
    destruct (jsstring_eqb key (str "id")) eqn:He; [|reflexivity].
    apply jsstring_eqb_eq in He. congruence.
Qed.

Lemma snapshotItem_id_shadowed_witness :
  str "name" <> str "id"
  /\ lookupIn (str "name")
       (snapshotItem (mkDoc (str "doc1") [(str "name", str "Kim")]))
     = Some (str "Kim").
Proof.
  assert (Hne : str "name" <> str "id") by discriminate.
  split; [exact Hne|].
  exact (proj2 (snapshotItem_id_shadowed
                  (mkDoc (str "doc1") [(str "name", str "Kim")]))
           (str "name") Hne).
Defined.

(** X10: a report written by a save and read back from a snapshot loads
    into the very form that was saved, whatever the document id; the
    current id becomes the form's patient-ID field, not the document
    id. *)
Theorem save_then_load_round_trip :
  forall (f : Form) (now docId : jsstring) (innerWidth : Z)
         (st : AppState) (sidebarOpen : bool),
    let item := snapshotItem (mkDoc docId (toObject (mkReportData f now))) in
    let st' := fst (handleLoad item innerWidth st sidebarOpen) in
    form st' = f
    /\ currentId st' = Some (id f)
    /\ st' = setForm (fun _ => f) (setCurrentId (Some (id f)) st).
Proof.
  intros f now docId w st sb item st'. subst st' item.
  destruct f as [n i r d t ind fi im].
  unfold handleLoad, snapshotItem, propOrEmpty, toObject.
  cbn -[or_else setForm setCurrentId].
  rewrite !or_else_empty. cbn [or_else truthy].
  repeat split.
Qed.

(** X11: so the save that follows the load of a saved report does not
    address the loaded document: with a non-empty patient ID it updates
    the document named by the patient ID, and with an empty one it
    creates a new document. *)
Theorem save_after_load_target :
  forall (appId : jsstring) (f : Form) (now docId : jsstring)
         (innerWidth : Z) (st : AppState) (sidebarOpen : bool)
         (now' : jsstring) (db : Firestore) (uid : jsstring),
    user st = Some uid -> dbRef st = true -> name f <> [] ->
    let item := snapshotItem (mkDoc docId (toObject (mkReportData f now))) in
    let st' := fst (handleLoad item innerWidth st sidebarOpen) in
    let data := mkReportData f now' in
    (id f <> [] ->
       exists outcome,
         snd (handleSave appId now' db st') =
         [SetDocMerge (reportsPath appId uid) (id f) data
            (setDoc db (reportsPath appId uid) (id f) data);
          outcome]
         /\ isGatewayCall outcome = false)
    /\ (id f = [] ->
          exists outcome,
            snd (handleSave appId now' db st') =
            [AddDoc (reportsPath appId uid) data
               (addDoc db (reportsPath appId uid) data);
             outcome]
            /\ isGatewayCall outcome = false).
Proof.
  intros appId f now docId w st sb now' db uid Hu Hd Hn item st' data.
  destruct (save_then_load_round_trip f now docId w st sb) as (_ & _ & Hst).
  fold item in Hst. fold st' in Hst.
  apply truthy_nonempty in Hn.
  split; intros Hid.
  - apply truthy_nonempty in Hid.
    unfold handleSave. rewrite Hst. simpl. rewrite Hu, Hd, Hn. simpl.
    rewrite Hid. simpl. eexists. split; [reflexivity|].
    fold data. destruct (setDoc db _ _ _); reflexivity.
  - unfold handleSave. rewrite Hst. simpl. rewrite Hu, Hd, Hn. simpl.
    rewrite Hid. simpl. fold data.
    destruct (addDoc db _ _) eqn:Ha; eexists; split; reflexivity.
Qed.

Lemma save_after_load_target_witness :
  let f := mkForm (str "Kim") (str "P-17") [] (str "2026-11-03") [] [] [] [] in
  user freshSession = Some (str "u1") /\ dbRef freshSession = true
  /\ name f <> [] /\ id f <> []
  /\ map isGatewayCall
       (snd (handleSave (str "sonograph-x") (str "t2") storeExample
               (fst (handleLoad
                       (snapshotItem
                          (mkDoc (str "doc1") (toObject (mkReportData f (str "t1")))))
                       1024 freshSession true))))
     = [true; false].
Proof.
  intros f.
  assert (Hn : name f <> []) by discriminate.
  assert (Hi : id f <> []) by discriminate.
  repeat (split; [first [reflexivity | assumption]|]).
  destruct (proj1 (save_after_load_target (str "sonograph-x") f (str "t1")
                     (str "doc1") 1024 freshSession true (str "t2")
                     storeExample (str "u1") eq_refl eq_refl Hn) Hi)
    as (outcome & Hev & Hout).
  rewrite Hev. simpl. rewrite Hout. reflexivity.
Defined.

Section HistoryFacts.
Variable dateValue : jsstring -> jsnum.

Lemma insertItem_perm (x : jsobject) (l : list jsobject) :
  Permutation (insertItem dateValue x l) (x :: l).
Proof.
  induction l as [|y r IH]; simpl; [apply Permutation_refl|].
  destruct (js_lt _ _).
  - eapply perm_trans; [apply perm_skip, IH|apply perm_swap].
  - apply Permutation_refl.
Qed.

Lemma sortItems_perm (l : list jsobject) :
  Permutation (sortItems dateValue l) l.
Proof.
  induction l as [|x r IH]; simpl; [apply perm_nil|].
  eapply perm_trans; [apply insertItem_perm|apply perm_skip, IH].
Qed.

Lemma notOlder_refl_valid (a : jsobject) (x : Z) :
  timeOf dateValue a = Num x -> notOlder dateValue a a.
Proof. intros H. exists x, x. repeat split; try assumption. lia. Qed.

Lemma insertItem_valid (x : jsobject) (l : list jsobject) :
  datesValid dateValue (x :: l) -> datesValid dateValue (insertItem dateValue x l).
Proof.
  intros H. unfold datesValid in *.
  eapply Permutation_Forall; [|exact H].
  apply Permutation_sym, insertItem_perm.
Qed.

Lemma insertItem_sorted (x : jsobject) (l : list jsobject) :
  datesValid dateValue (x :: l) ->
  StronglySorted (notOlder dateValue) l ->
  StronglySorted (notOlder dateValue) (insertItem dateValue x l).
Proof.
  intros Hv Hs. induction l as [|y r IH]; simpl.
  - constructor; constructor.
  - inversion Hv as [|? ? [tx Hx] Hvr]; subst.
    inversion Hvr as [|? ? [ty Hy] Hvr']; subst.
    inversion Hs as [|? ? Hsr Hall]; subst.
    unfold compareFn. rewrite Hx, Hy. simpl.
    destruct (tx - ty <? 0) eqn:Hc.
    + apply Z.ltb_lt in Hc.
      constructor.
      * apply IH; [constructor; [exists tx; exact Hx|exact Hvr']|exact Hsr].
      * eapply Permutation_Forall;
          [apply Permutation_sym, insertItem_perm|].
        constructor; [|exact Hall].
        exists ty, tx. repeat split; try assumption. lia.
    + apply Z.ltb_ge in Hc.
      constructor; [exact Hs|].
      constructor.
      * exists tx, ty. repeat split; try assumption. lia.
      * rewrite Forall_forall in *. intros z Hz.
        destruct (Hall z Hz) as (a & b & Ha & Hb & Hab).
        rewrite Hy in Ha. inversion Ha. subst a.
        exists tx, b. repeat split; try assumption. lia.
Qed.

Lemma sortItems_sorted (l : list jsobject) :
  datesValid dateValue l ->
  StronglySorted (notOlder dateValue) (sortItems dateValue l).
Proof.
  induction l as [|x r IH]; simpl; intros Hv; [constructor|].
  inversion Hv as [|? ? Hx Hr]; subst.
  apply insertItem_sorted.
  - constructor; [exact Hx|].
    eapply Permutation_Forall; [apply Permutation_sym, sortItems_perm|exact Hr].
  - apply IH. exact Hr.
Qed.

(** Items of one date keep their order through an insertion. *)
Lemma insertItem_stable (t : Z) (x : jsobject) (l : list jsobject) :
  datesValid dateValue (x :: l) ->
  StronglySorted (notOlder dateValue) l ->
  filter (fun i => js_eq (timeOf dateValue i) (Num t)) (insertItem dateValue x l)
  = filter (fun i => js_eq (timeOf dateValue i) (Num t)) (x :: l).
Proof.
  intros Hv Hs. induction l as [|y r IH]; [reflexivity|].
  inversion Hv as [|? ? [tx Hx] Hvr]; subst.
  inversion Hvr as [|? ? [ty Hy] Hvr']; subst.
  inversion Hs as [|? ? Hsr Hall]; subst.
  simpl insertItem. unfold compareFn. rewrite Hx, Hy. simpl js_lt.
  destruct (tx - ty <? 0) eqn:Hc; [|reflexivity].
  apply Z.ltb_lt in Hc.
  assert (IH' := IH (Forall_cons _ (ex_intro _ tx Hx) Hvr') Hsr).
  simpl filter at 1. rewrite IH'. simpl. rewrite Hx, Hy. simpl.
  destruct (tx =? t) eqn:E1; destruct (ty =? t) eqn:E2; try reflexivity.
  apply Z.eqb_eq in E1, E2. lia.
Qed.

Lemma sortItems_stable (t : Z) (l : list jsobject) :
  datesValid dateValue l ->
  filter (fun i => js_eq (timeOf dateValue i) (Num t)) (sortItems dateValue l)
  = filter (fun i => js_eq (timeOf dateValue i) (Num t)) l.
Proof.
  induction l as [|x r IH]; intros Hv; [reflexivity|].
  inversion Hv as [|? ? Hx Hr]; subst.
  simpl sortItems. rewrite insertItem_stable.
  - simpl. rewrite (IH Hr). reflexivity.
  - constructor; [exact Hx|].
    eapply Permutation_Forall; [apply Permutation_sym, sortItems_perm|exact Hr].
  - apply sortItems_sorted. exact Hr.
Qed.
End HistoryFacts.

(** X12: the history list holds exactly the items of the snapshot, each as
    often as the snapshot has it; in particular a document that is no
    longer in the snapshot is no longer in the list. *)
Theorem history_is_permutation_of_snapshot :
  forall (dateValue : jsstring -> jsnum) (docs : list Doc),
    Permutation (onSnapshotList dateValue docs) (map snapshotItem docs)
    /\ List.length (onSnapshotList dateValue docs) = List.length docs
    /\ (forall item, In item (onSnapshotList dateValue docs)
                     <-> In item (map snapshotItem docs)).
Proof.
  intros dateValue docs. unfold onSnapshotList.
  pose proof (sortItems_perm dateValue (map snapshotItem docs)) as Hp.
  split; [exact Hp|]. split.
  - rewrite (Permutation_length Hp). apply length_map.
  - intros item. split; intros H.
    + eapply Permutation_in; [exact Hp|exact H].
    + eapply Permutation_in; [apply Permutation_sym, Hp|exact H].
Qed.

(** X13: when every document of the snapshot has a valid [updatedAt], the
    history list is ordered from the most recent to the oldest, and
    documents of equal date keep the order of the snapshot. *)
Theorem history_sorted_newest_first :
  forall (dateValue : jsstring -> jsnum) (docs : list Doc),
    datesValid dateValue (map snapshotItem docs) ->
    StronglySorted (notOlder dateValue) (onSnapshotList dateValue docs)
    /\ (forall t,
          filter (fun i => js_eq (timeOf dateValue i) (Num t))
            (onSnapshotList dateValue docs)
          = filter (fun i => js_eq (timeOf dateValue i) (Num t))
              (map snapshotItem docs)).
Proof.
  intros dateValue docs Hv. unfold onSnapshotList. split.
  - now apply sortItems_sorted.
  - intros t. now apply sortItems_stable.
Qed.

Lemma history_sorted_newest_first_witness :
  datesValid clockExample (map snapshotItem snapshotExample)
  /\ map (propOrEmpty (str "name")) (onSnapshotList clockExample snapshotExample)
     = [str "Lee"; str "Park"; str "Kim"]
  /\ StronglySorted (notOlder clockExample)
       (onSnapshotList clockExample snapshotExample).
Proof.
  assert (Hv : datesValid clockExample (map snapshotItem snapshotExample)).
  { unfold datesValid, snapshotExample. simpl.
    repeat (constructor; [eexists; vm_compute; reflexivity|]). constructor. }
  split; [exact Hv|]. split; [vm_compute; reflexivity|].
  exact (proj1 (history_sorted_newest_first clockExample snapshotExample Hv)).
Defined.

Lemma currentIdIs_true (i : jsstring) (st : AppState) :
  currentIdIs i st = true <-> currentId st = Some i.
Proof.
  unfold currentIdIs. destruct (currentId st) as [c|]; split; intros H;
    try discriminate.
  - apply jsstring_eqb_eq in H. congruence.
  - inversion H. apply jsstring_eqb_refl.
Qed.

(** X14: [handleDelete] touches the store at most once, only after the
    user confirmed, and only for the id it was given. The session is
    reset, exactly as by [handleNew], when the deleted id is the current
    one and the deletion went through (or no database is configured); in
    every other case, in particular when the user declines, when the
    store call fails or when another report is deleted, the session is
    left as it was. *)
Theorem handleDelete_outcomes :
  forall (appId nowISO i : jsstring) (confirmed : bool)
         (deleteDoc : jsstring -> jsstring -> Settled unit) (st : AppState),
    let r := handleDelete appId nowISO i confirmed deleteDoc st in
    let st' := fst (fst r) in
    let evs := snd (fst r) in
    (deletions evs <= 1)%nat
    /\ (forall c d s, In (DeleteDoc c d s) evs ->
          confirmed = true /\ d = i /\ dbRef st = true /\ s = deleteDoc c i)
    /\ (confirmed = false -> st' = st /\ snd r = Fulfilled)
    /\ (snd r <> Fulfilled -> st' = st)
    /\ (currentId st <> Some i -> st' = st)
    /\ (confirmed = true -> snd r = Fulfilled -> currentId st = Some i ->
          st' = handleNew nowISO st).
Proof.
  intros appId nowISO i confirmed deleteDoc st r st' evs. subst st' evs r.
  unfold handleDelete.
  destruct confirmed; simpl.
  - destruct (dbRef st) eqn:Hdb.
    + destruct (user st) as [uid|]; simpl.
      * destruct (deleteDoc (reportsPath appId uid) i) eqn:Hdel; simpl.
        -- split; [unfold deletions; simpl; lia|].
           split.
           { intros c d s [H|[H|[H|[]]]]; try discriminate.
             inversion H. subst. rewrite Hdel. repeat split. }
           split; [discriminate|].
           split; [intros H; exfalso; apply H; reflexivity|]. split.
           { intros Hne. destruct (currentIdIs i st) eqn:Hc; [|reflexivity].
             apply currentIdIs_true in Hc. congruence. }
           intros _ _ Hc. apply currentIdIs_true in Hc. rewrite Hc. reflexivity.
        -- split; [unfold deletions; simpl; lia|].
           split.
           { intros c d s [H|[H|[H|[]]]]; try discriminate.
             inversion H. subst. rewrite Hdel. repeat split. }
           repeat split; try reflexivity; try discriminate.
      * split; [unfold deletions; simpl; lia|].
        split; [intros c d s [H|[H|[]]]; discriminate|].
        repeat split; try reflexivity; try discriminate.
    + split; [unfold deletions; simpl; lia|].
      split; [intros c d s [H|[H|[]]]; discriminate|].
      split; [discriminate|].
           split; [intros H; exfalso; apply H; reflexivity|]. split.
      { intros Hne. destruct (currentIdIs i st) eqn:Hc; [|reflexivity].
        apply currentIdIs_true in Hc. congruence. }
      intros _ _ Hc. apply currentIdIs_true in Hc. rewrite Hc. reflexivity.
  - split; [unfold deletions; simpl; lia|].
    split; [intros c d s [H|[H|[]]]; discriminate|].
    repeat split; try reflexivity; try discriminate.
Qed.

Lemma handleDelete_outcomes_witness :
  let st := setCurrentId (Some (str "doc1")) freshSession in
  currentId st = Some (str "doc1")
  /\ fst (fst (handleDelete (str "sonograph-x") (str "2026-11-03T09:00:00.000Z")
                 (str "doc1") true deleteExample st))
     = handleNew (str "2026-11-03T09:00:00.000Z") st.
Proof.
  intros st. split; [reflexivity|].
  exact (proj2 (proj2 (proj2 (proj2 (proj2
    (handleDelete_outcomes (str "sonograph-x") (str "2026-11-03T09:00:00.000Z")
       (str "doc1") true deleteExample st)))))
    eq_refl eq_refl eq_refl).
Defined.

(* ================================================================== *)
(** * Further properties: save *)
(* ================================================================== *)

(** X15: a save never changes the form and calls the store at most once;
    it announces success exactly when its store call resolved; when the
    call is rejected the whole state is left as it was and the only trace
    is a console error; and without a user or a database it does nothing
    at all. *)
Theorem handleSave_outcomes :
  forall (appId now : jsstring) (db : Firestore) (st : AppState),
    let r := handleSave appId now db st in
    form (fst r) = form st
    /\ (List.length (filter isGatewayCall (snd r)) <= 1)%nat
    /\ (In (Alert (str "Report saved successfully.")) (snd r)
        <-> existsb resolvedWrite (snd r) = true)
    /\ (forall c d m, In (AddDoc c d (Rejects m)) (snd r) ->
          fst r = st /\ snd r = [AddDoc c d (Rejects m);
                                 ConsoleError [str "Save failed"; m]])
    /\ (forall c i d m, In (SetDocMerge c i d (Rejects m)) (snd r) ->
          fst r = st /\ snd r = [SetDocMerge c i d (Rejects m);
                                 ConsoleError [str "Save failed"; m]])
    /\ (subscribes st = false -> r = (st, [])).
Proof.
  intros appId now db st r. subst r. unfold handleSave, subscribes.
  destruct (user st) as [uid|]; [destruct (dbRef st)|].
  - destruct (negb (truthy (name (form st)))).
    + simpl. split; [reflexivity|]. split; [lia|].
      split; [split; [intros [H|[]]; inversion H|discriminate]|].
      split; [intros c d m [H|[]]; discriminate|].
      split; [intros c i d m [H|[]]; discriminate|]. discriminate.
    + destruct (currentId_truthy (currentId st)).
      * destruct (setDoc db _ _ _) as [[]|m] eqn:Hset; simpl.
        -- split; [reflexivity|]. split; [lia|].
           split; [split; [reflexivity|intros _; right; left; reflexivity]|].
           split; [intros c d m [H|[H|[]]]; discriminate|].
           split; [intros c i d m [H|[H|[]]]; discriminate|]. discriminate.
        -- split; [reflexivity|]. split; [lia|].
           split; [split; [intros [H|[H|[]]]; discriminate|discriminate]|].
           split; [intros c d m' [H|[H|[]]]; discriminate|].
           split; [|discriminate].
           intros c i d m' [H|[H|[]]]; try discriminate.
           inversion H. subst. split; reflexivity.
      * destruct (addDoc db _ _) as [ref_id|m] eqn:Hadd; simpl.
        -- split; [reflexivity|]. split; [lia|].
           split; [split; [reflexivity|intros _; right; left; reflexivity]|].
           split; [intros c d m [H|[H|[]]]; discriminate|].
           split; [intros c i d m [H|[H|[]]]; discriminate|]. discriminate.
        -- split; [reflexivity|]. split; [lia|].
           split; [split; [intros [H|[H|[]]]; discriminate|discriminate]|].
           split.
           { intros c d m' [H|[H|[]]]; try discriminate.
             inversion H. subst. split; reflexivity. }
           split; [intros c i d m' [H|[H|[]]]; discriminate|]. discriminate.
  - simpl. split; [reflexivity|]. split; [lia|].
    split; [split; [intros []|discriminate]|].
    split; [intros c d m []|]. split; [intros c i d m []|]. reflexivity.
  - simpl. split; [reflexivity|]. split; [lia|].
    split; [split; [intros []|discriminate]|].
    split; [intros c d m []|]. split; [intros c i d m []|]. reflexivity.
Qed.

Lemma handleSave_outcomes_witness :
  subscribes localSession = false
  /\ handleSave (str "sonograph-x") (str "t") storeExample
       (handleChange f_name (str "Kim") localSession)
     = (handleChange f_name (str "Kim") localSession, []).
Proof.
  split; [reflexivity|].
  exact (proj2 (proj2 (proj2 (proj2 (proj2
    (handleSave_outcomes (str "sonograph-x") (str "t") storeExample
       (handleChange f_name (str "Kim") localSession)))))) eq_refl).
Defined.

(* ================================================================== *)
(** * Further properties: the AI bridge of the current component *)
(* ================================================================== *)

(** X16: [callAiFunction] returns [null] exactly when it has shown an
    alert; it sends one request when the functions handle is set and none
    otherwise, never waits, and the request is the mode with the payload;
    a resolved call returns the text, or [''] when the answer has none. *)
Theorem callAiFunction_outcomes :
  forall (fn : Callable) (st : AppState) (m : Mode)
         (pf pi : option jsstring),
    let r := callAiFunction fn st m pf pi in
    let request := Req.mk (Some (mode_name m)) pf pi in
    (fst r = None <-> existsb isAlert (snd r) = true)
    /\ requests (snd r) = (if functionsRef st then 1%nat else 0%nat)
    /\ (forall f q, In (CallFunction f q) (snd r) ->
          f = str "generateReportText" /\ q = request)
    /\ (functionsRef st = true ->
        forall t, fn request = Resolves t ->
          r = (Some (match t with Some x => x | None => [] end),
               [CallFunction (str "generateReportText") request])).
Proof.
  intros fn st m pf pi r request. subst r request. unfold callAiFunction.
  destruct (functionsRef st); simpl.
  - destruct (fn _) as [t|e] eqn:Hfn; simpl.
    + split; [split; discriminate|]. split; [reflexivity|]. split.
      * intros f q [H|[]]. inversion H. split; reflexivity.
      * intros _ t' Ht. inversion Ht. subst. rewrite or_else_empty. reflexivity.
    + split; [split; reflexivity|]. split; [reflexivity|]. split.
      * intros f q [H|[H|[H|[]]]]; try discriminate.
        inversion H. split; reflexivity.
      * intros _ t' Ht. discriminate Ht.
  - split; [split; reflexivity|]. split; [reflexivity|]. split.
    + intros f q [H|[]]. discriminate H.
    + discriminate.
Qed.

Lemma callAiFunction_outcomes_witness :
  functionsRef freshSession = true
  /\ callAiFunction callableUp freshSession polish (Some (str "liver ok")) None
     = (Some (str "The liver is unremarkable."),
        [CallFunction (str "generateReportText")
           (Req.mk (Some (str "polish")) (Some (str "liver ok")) None)]).
Proof.
  split; [reflexivity|].
  exact (proj2 (proj2 (proj2
    (callAiFunction_outcomes callableUp freshSession polish
       (Some (str "liver ok")) None))) eq_refl
    (Some (str "The liver is unremarkable.")) eq_refl).
Defined.

Lemma write_back_cases (upd : jsstring -> Form -> Form)
    (result : option jsstring) (st : AppState) :
  write_back upd result st = st
  \/ exists v, result = Some v /\ v <> []
               /\ write_back upd result st = setForm (upd v) st.
Proof.
  unfold write_back. destruct result as [v|]; [|left; reflexivity].
  destruct (truthy v) eqn:Ht; [|left; reflexivity].
  right. exists v. apply truthy_nonempty in Ht. repeat split. exact Ht.
Qed.

(** X17: Polish writes the findings only and Suggest the impression only,
    and each of them only with a non-empty text: the other form fields,
    the current id, the user and the refs are kept; non-empty findings
    stay non-empty; with empty findings nothing happens; once the call was
    started [aiLoading] is back to [false]; and a rejected call leaves the
    form as it was. *)
Theorem polish_and_suggest_frame :
  forall (fn : Callable) (st : AppState),
    let p := fst (handleAiPolish fn st) in
    let q := fst (handleAiImpression fn st) in
    (form p = with_findings (findings (form p)) (form st)
     /\ form q = with_impression (impression (form q)) (form st)
     /\ p = setAiLoading (aiLoading p) (setForm (fun _ => form p) st)
     /\ q = setAiLoading (aiLoading q) (setForm (fun _ => form q) st))
    /\ (findings (form st) <> [] ->
          findings (form p) <> []
          /\ aiLoading p = NotLoading /\ aiLoading q = NotLoading
          /\ (impression (form q) = impression (form st)
              \/ impression (form q) <> []))
    /\ (findings (form st) = [] -> p = st /\ q = st)
    /\ ((forall request, exists e, fn request = Rejects e) ->
          form p = form st /\ form q = form st).
Proof.
  intros fn st p q. subst p q.
  unfold handleAiPolish, handleAiImpression.
  destruct (truthy (findings (form st))) eqn:Hf; simpl.
  - apply truthy_nonempty in Hf.
    destruct (callAiFunction fn (setAiLoading (Loading polish) st) polish
                (Some (findings (form st))) None) as [r1 e1] eqn:H1.
    destruct (callAiFunction fn (setAiLoading (Loading impression_mode) st)
                impression_mode (Some (findings (form st))) None)
      as [r2 e2] eqn:H2.
    simpl.
    destruct (write_back_cases with_findings r1
                (setAiLoading (Loading polish) st)) as [W1|(v1 & Hr1 & Hv1 & W1)];
      destruct (write_back_cases with_impression r2
                  (setAiLoading (Loading impression_mode) st))
        as [W2|(v2 & Hr2 & Hv2 & W2)];
      rewrite W1, W2; simpl;
      (split; [repeat split; destruct (form st); reflexivity|]);
      (split; [intros _; repeat split; try assumption; auto|]);
      (split; [intros Hnil; congruence|]);
      intros Hrej.
    + split; reflexivity.
    + exfalso. unfold callAiFunction in H2. simpl in H2.
      destruct (functionsRef st); [|inversion H2; congruence].
      destruct (Hrej (Req.mk (Some (str "impression"))
                        (Some (findings (form st))) None)) as [e He].
      simpl in H2. rewrite He in H2. inversion H2. congruence.
    + exfalso. unfold callAiFunction in H1. simpl in H1.
      destruct (functionsRef st); [|inversion H1; congruence].
      destruct (Hrej (Req.mk (Some (str "polish"))
                        (Some (findings (form st))) None)) as [e He].
      simpl in H1. rewrite He in H1. inversion H1. congruence.
    + exfalso. unfold callAiFunction in H1. simpl in H1.
      destruct (functionsRef st); [|inversion H1; congruence].
      destruct (Hrej (Req.mk (Some (str "polish"))
                        (Some (findings (form st))) None)) as [e He].
      simpl in H1. rewrite He in H1. inversion H1. congruence.
  - apply truthy_empty in Hf.
    split; [repeat split; destruct st as [u d fr c a m x f]; simpl in *;
            destruct f; reflexivity|].
    split; [congruence|]. split; [intros _; split; reflexivity|].
    intros _. split; reflexivity.
Qed.

Lemma polish_and_suggest_frame_witness :
  let st := handleChange f_findings (str "liver ok") freshSession in
  findings (form st) <> []
  /\ (forall request, exists e, callableDown request = Rejects e)
  /\ findings (form (fst (handleAiPolish callableDown st))) = str "liver ok"
  /\ aiLoading (fst (handleAiPolish callableDown st)) = NotLoading.
Proof.
  intros st.
  assert (Hne : findings (form st) <> []) by discriminate.
  assert (Hdown : forall request, exists e, callableDown request = Rejects e)
    by (intros request; eexists; reflexivity).
  pose proof (polish_and_suggest_frame callableDown st) as (_ & H2 & _ & H4).
  split; [exact Hne|]. split; [exact Hdown|]. split.
  - exact (f_equal findings (proj1 (H4 Hdown))).
  - exact (proj1 (proj2 (H2 Hne))).
Defined.

Lemma explanation_of_nonempty (result : option jsstring) :
  explanation_of result <> []
  /\ (result = None \/ result = Some [] ->
      explanation_of result = str "Failed to generate explanation.")
  /\ (forall v, result = Some v -> v <> [] -> explanation_of result = v).
Proof.
  unfold explanation_of. split; [|split].
  - destruct result as [[|c v]|]; simpl; discriminate.
  - intros [->| ->]; reflexivity.
  - intros v -> Hv. destruct v; [congruence|reflexivity].
Qed.

(** X18: once a report that is not empty is explained, by either
    component, the modal is open, [aiLoading] is back to [false] and the
    explanation shown is never empty: it is the text the bridge returned,
    or "Failed to generate explanation." when the bridge returned [null]
    or an empty text. *)
Theorem handleAiExplain_shows_text :
  forall (fn : Callable) (net : Legacy.Network) (st : AppState),
    findings (form st) <> [] \/ impression (form st) <> [] ->
    let a := fst (handleAiExplain fn st) in
    let b := fst (Legacy.handleAiExplain net st) in
    (explainModalOpen a = true /\ aiLoading a = NotLoading
     /\ aiExplanation a <> []
     /\ aiExplanation a =
        explanation_of
          (fst (callAiFunction fn st explain (Some (findings (form st)))
                  (Some (impression (form st))))))
    /\ (explainModalOpen b = true /\ aiLoading b = NotLoading
        /\ aiExplanation b <> []
        /\ exists prompt,
             aiExplanation b = explanation_of (fst (Legacy.callGemini net prompt))
             /\ endsWith prompt (str "Impression: " ++ impression (form st)) = true).
Proof.
  intros fn net st Hne a b. subst a b.
  unfold handleAiExplain, Legacy.handleAiExplain.
  assert (Hg : negb (truthy (findings (form st)))
               && negb (truthy (impression (form st))) = false).
  { destruct Hne as [H|H]; apply truthy_nonempty in H; rewrite H; simpl;
      [reflexivity|apply andb_false_r]. }
  rewrite Hg. split.
  - assert (Hsame : forall s', functionsRef s' = functionsRef st ->
              callAiFunction fn s' explain (Some (findings (form st)))
                (Some (impression (form st)))
              = callAiFunction fn st explain (Some (findings (form st)))
                  (Some (impression (form st)))).
    { intros s' Hs. unfold callAiFunction. rewrite Hs. reflexivity. }
    rewrite Hsame by reflexivity.
    destruct (callAiFunction fn st explain _ _) as [r evs]. simpl.
    repeat split. apply explanation_of_nonempty.
  - match goal with
    | |- context [Legacy.callGemini net ?p] =>
        set (prompt := p); destruct (Legacy.callGemini net prompt) as [r evs] eqn:Hc
    end.
    simpl. repeat split.
    + apply explanation_of_nonempty.
    + exists prompt. rewrite Hc. split; [reflexivity|].
      subst prompt.
      rewrite !app_assoc. rewrite <- (app_assoc _ (str "Impression: ")).
      apply endsWith_app.
Qed.

Lemma handleAiExplain_shows_text_witness :
  let st := handleChange f_impression (str "Normal.") freshSession in
  (findings (form st) <> [] \/ impression (form st) <> [])
  /\ aiExplanation (fst (handleAiExplain callableDown st))
     = str "Failed to generate explanation."
  /\ explainModalOpen (fst (handleAiExplain callableDown st)) = true.
Proof.
  intros st.
  assert (Hne : findings (form st) <> [] \/ impression (form st) <> [])
    by (right; discriminate).
  pose proof (handleAiExplain_shows_text callableDown rateLimitThenText st Hne)
    as [(H1 & _ & _ & H4) _].
  split; [exact Hne|]. split; [|exact H1].
  rewrite H4. reflexivity.
Defined.

(* ================================================================== *)
(** * Further properties: trimming *)
(* ================================================================== *)

Lemma trimStart_head (s : jsstring) (c : N) (r : jsstring) :
  trimStart s = c :: r -> isWhiteSpace c = false.
Proof.
  induction s as [|x s IH]; simpl; [discriminate|].
  destruct (isWhiteSpace x) eqn:Hx; [exact IH|].
  intros H. inversion H. subst. exact Hx.
Qed.

Lemma trimStart_suffix (s : jsstring) : exists p, s = p ++ trimStart s.
Proof.
  induction s as [|x s [p IH]]; simpl; [exists []; reflexivity|].
  destruct (isWhiteSpace x).
  - exists (x :: p). simpl. f_equal. exact IH.
  - exists []. reflexivity.
Qed.

Lemma last_app_singleton (l : jsstring) (c d : N) : last (l ++ [c]) d = c.
Proof. apply last_last. Qed.

Lemma trim_trimmed (s : jsstring) : trimmed (trim s).
Proof.
  unfold trim.
  destruct (trimStart (rev (trimStart s))) as [|c u] eqn:Hu; [exact I|].
  pose proof (trimStart_head _ _ _ Hu) as Hc.
  destruct (trimStart_suffix (rev (trimStart s))) as [p Hp].
  rewrite Hu in Hp.
  assert (Ha : trimStart s = rev (c :: u) ++ rev p).
  { rewrite <- (rev_involutive (trimStart s)), Hp, rev_app_distr. reflexivity. }
  simpl rev in *.
  destruct (rev u ++ [c]) as [|x t] eqn:Hx.
  - destruct (rev u); discriminate.
  - unfold trimmed. split.
    + simpl in Ha. exact (trimStart_head _ _ _ Ha).
    + rewrite <- Hx, last_app_singleton. exact Hc.
Qed.

Lemma trimStart_kept (c : N) (l : jsstring) :
  isWhiteSpace c = false -> trimStart (c :: l) = c :: l.
Proof. intros H. simpl. rewrite H. reflexivity. Qed.

Lemma rev_head_last (c : N) (r : jsstring) :
  rev (c :: r) = last (c :: r) c :: rev (removelast (c :: r)).
Proof.
  assert (Hne : c :: r <> []) by discriminate.
  rewrite (app_removelast_last c Hne) at 1.
  rewrite rev_app_distr. reflexivity.
Qed.

Lemma trim_of_trimmed (s : jsstring) : trimmed s -> trim s = s.
Proof.
  destruct s as [|c r]; [reflexivity|].
  intros [Hc Hl]. unfold trim.
  rewrite (trimStart_kept c r Hc), rev_head_last.
  rewrite (trimStart_kept _ _ Hl), <- rev_head_last.
  apply rev_involutive.
Qed.

(** [trim] removes the white space at both ends and nothing else: the
    result neither starts nor ends with white space, it is a contiguous
    part of the input, and trimming again changes nothing. *)
Theorem trim_is_idempotent_and_tight :
  forall s : jsstring,
    trimmed (trim s)
    /\ trim (trim s) = trim s
    /\ exists before after,
         s = before ++ trim s ++ after
         /\ forallb isWhiteSpace before = true.
Proof.
  intros s. split; [apply trim_trimmed|].
  split; [apply trim_of_trimmed, trim_trimmed|].
  unfold trim.
  assert (Hlead : forall x, exists p, x = p ++ trimStart x
                                      /\ forallb isWhiteSpace p = true).
  { induction x as [|c x (p & Hp & Hw)]; simpl; [exists []; split; reflexivity|].
    destruct (isWhiteSpace c) eqn:Hc.
    - exists (c :: p). simpl. rewrite Hc, Hw. split; [f_equal; exact Hp|reflexivity].
    - exists []. split; reflexivity. }
  destruct (Hlead s) as (p & Hp & Hw).
  destruct (trimStart_suffix (rev (trimStart s))) as [q Hq].
  exists p, (rev q). split; [|exact Hw].
  rewrite <- rev_app_distr, <- Hq, rev_involutive. exact Hp.
Qed.

(* ================================================================== *)
(** * Further properties: the cloud function *)
(* ================================================================== *)

Lemma buildPrompt_known (m f i : jsstring) :
  (jsstring_eqb m (str "polish") || jsstring_eqb m (str "impression")
   || jsstring_eqb m (str "explain")) = true ->
  exists prompt, Functions.buildPrompt m f i = Resolves prompt.
Proof.
  unfold Functions.buildPrompt. intros H.
  destruct (jsstring_eqb m (str "polish")); [eexists; reflexivity|].
  destruct (jsstring_eqb m (str "impression")); [eexists; reflexivity|].
  destruct (jsstring_eqb m (str "explain")); [eexists; reflexivity|].
  discriminate H.
Qed.

Lemma buildPrompt_unknown (m f i : jsstring) :
  (jsstring_eqb m (str "polish") || jsstring_eqb m (str "impression")
   || jsstring_eqb m (str "explain")) = false ->
  Functions.buildPrompt m f i = Rejects (str "Unsupported mode").
Proof.
  unfold Functions.buildPrompt. intros H.
  destruct (jsstring_eqb m (str "polish")); [discriminate|].
  destruct (jsstring_eqb m (str "impression")); [discriminate|].
  destruct (jsstring_eqb m (str "explain")); [discriminate|]. reflexivity.
Qed.

Lemma known_mode_truthy (m : jsstring) :
  (jsstring_eqb m (str "polish") || jsstring_eqb m (str "impression")
   || jsstring_eqb m (str "explain")) = true -> truthy m = true.
Proof.
  destruct m; [|reflexivity]. vm_compute. discriminate.
Qed.

(** X19: the cloud function calls the model exactly for the requests it
    lets through: mode ['explain'], or mode ['polish'] or ['impression']
    with non-empty findings; it then calls it exactly once. Every other
    request (no data, no mode, an unknown mode, missing findings) is
    rejected without any effect. *)
Theorem generateReportText_calls_model_iff :
  forall (openai : Functions.OpenAI) (data : option Req.t),
    let r := Functions.generateReportText openai data in
    (reachesModel data = true ->
       List.length (filter Functions.isOpenAICall (snd r)) = 1%nat)
    /\ (reachesModel data = false ->
          snd r = [] /\ exists msg, fst r = Rejects msg).
Proof.
  intros openai data r. subst r.
  unfold Functions.generateReportText, reachesModel.
  destruct data as [d|]; [|split; [discriminate|intros _; split; [reflexivity|eexists; reflexivity]]].
  destruct (Req.mode d) as [m|];
    [|split; [discriminate|intros _; split; [reflexivity|eexists; reflexivity]]].
  set (f := match Req.findings d with Some f => f | None => [] end).
  set (i := match Req.impression d with Some i => i | None => [] end).
  destruct (jsstring_eqb m (str "explain")) eqn:He.
  - apply jsstring_eqb_eq in He. subst m. simpl.
    rewrite andb_false_r.
    split; [|discriminate]. intros _.
    change (Functions.buildPrompt (str "explain") f i)
      with (Resolves (A:=jsstring)
              (match Functions.buildPrompt (str "explain") f i with
               | Resolves p => p
               | Rejects _ => []
               end)).
    cbv iota. destruct (openai _); reflexivity.
  - simpl orb.
    destruct (truthy m) eqn:Hm; simpl negb; cbv iota.
    + destruct (truthy f) eqn:Hf; simpl negb; simpl andb; cbv iota.
      * rewrite andb_true_r.
        destruct (jsstring_eqb m (str "polish") || jsstring_eqb m (str "impression"))
          eqn:Hk.
        -- split; [|discriminate]. intros _.
           destruct (buildPrompt_known m f i) as [p Hp].
           { rewrite Hk. reflexivity. }
           rewrite Hp. destruct (openai p); reflexivity.
        -- split; [discriminate|]. intros _.
           rewrite buildPrompt_unknown by (rewrite Hk, He; reflexivity).
           split; [reflexivity|eexists; reflexivity].
      * rewrite andb_false_r. split; [discriminate|]. intros _.
        split; [reflexivity|eexists; reflexivity].
    + split; [|intros _; split; [reflexivity|eexists; reflexivity]].
      intros H. apply andb_true_iff in H as [Hk _].
      assert (Ht : truthy m = true).
      { apply known_mode_truthy. rewrite Hk. reflexivity. }
      congruence.
Qed.

Lemma generateReportText_calls_model_iff_witness :
  reachesModel (Some (Req.mk (Some (str "summary")) (Some (str "liver ok")) None))
  = false
  /\ snd (Functions.generateReportText (fun _ => Resolves (Some (str " ok ")))
            (Some (Req.mk (Some (str "summary")) (Some (str "liver ok")) None)))
     = [].
Proof.
  split; [reflexivity|].
  exact (proj1 (proj2 (generateReportText_calls_model_iff
                         (fun _ => Resolves (Some (str " ok ")))
                         (Some (Req.mk (Some (str "summary"))
                                  (Some (str "liver ok")) None))) eq_refl)).
Defined.

(** X20: the caller of the cloud function sees one of four fixed error
    messages; a failure of the model is always reported as
    "AI generation failed", its own message going to the log only; the
    model is asked with ['gpt-4o-mini'], temperature 0.3, the prompt of
    the mode, and a budget of 600 tokens for ['explain'] and 350
    otherwise; a text that is returned neither starts nor ends with white
    space, and it is the empty string when the model produced none. *)
Theorem generateReportText_results :
  forall (openai : Functions.OpenAI) (data : option Req.t),
    let r := Functions.generateReportText openai data in
    (forall msg, fst r = Rejects msg -> In msg functionErrors)
    /\ (forall m e, In (Functions.LoggerError m e) (snd r) ->
          m = str "OpenAI call failed"
          /\ fst r = Rejects (str "AI generation failed"))
    /\ (forall model input tokens temperature,
          In (Functions.OpenAICreate model input tokens temperature) (snd r) ->
          model = str "gpt-4o-mini" /\ temperature = 3
          /\ (forall e, openai input = Rejects e ->
                r = (Rejects (str "AI generation failed"),
                     [Functions.OpenAICreate model input tokens temperature;
                      Functions.LoggerError (str "OpenAI call failed") e]))
          /\ exists d m,
               data = Some d /\ Req.mode d = Some m
               /\ tokens = (if jsstring_eqb m (str "explain") then 600 else 350)
               /\ Functions.buildPrompt m
                    (match Req.findings d with Some f => f | None => [] end)
                    (match Req.impression d with Some i => i | None => [] end)
                  = Resolves input)
    /\ (forall t, fst r = Resolves t ->
          trimmed t
          /\ exists input out,
               openai input = Resolves out
               /\ t = match out with Some o => trim o | None => [] end).
Proof.
  intros openai data r. subst r.
  unfold Functions.generateReportText, functionErrors.
  destruct data as [d|]; cbn [Req.mode Req.findings Req.impression];
    [|repeat split; try (intros; contradiction); try discriminate;
      intros msg H; inversion H; simpl; tauto].
  destruct (Req.mode d) as [m|] eqn:Hmode;
    [|repeat split; try (intros; contradiction); try discriminate;
      intros msg H; inversion H; simpl; tauto].
  destruct (negb (truthy m));
    [repeat split; try (intros; contradiction); try discriminate;
     intros msg H; inversion H; simpl; tauto|].
  destruct (_ && _);
    [repeat split; try (intros; contradiction); try discriminate;
     intros msg H; inversion H; simpl; tauto|].
  destruct (Functions.buildPrompt m _ _) as [p|e] eqn:Hp.
  - destruct (openai p) as [out|e] eqn:Ho; cbn [fst snd].
    + split; [discriminate|].
      split; [intros ? ? [H|[]]; discriminate|].
      split.
      { intros model input tokens temp [H|[]]. inversion H. subst.
        split; [reflexivity|]. split; [reflexivity|]. split.
        - intros e He. congruence.
        - exists d, m. repeat split; assumption. }
      intros t H. inversion H. subst t. rewrite or_else_empty.
      split; [destruct out; [apply trim_trimmed|exact I]|].
      exists p, out. split; [exact Ho|reflexivity].
    + split; [intros msg H; inversion H; simpl; tauto|].
      split.
      { intros m' e' [H|[H|[]]]; [discriminate|].
        inversion H. split; reflexivity. }
      split; [|discriminate].
      intros model input tokens temp [H|[H|[]]]; [|discriminate].
      inversion H. subst.
      split; [reflexivity|]. split; [reflexivity|]. split.
      * intros e' He'. rewrite Ho in He'. inversion He'. reflexivity.
      * exists d, m. repeat split; assumption.
  - unfold Functions.buildPrompt in Hp.
    destruct (jsstring_eqb m (str "polish")); [discriminate|].
    destruct (jsstring_eqb m (str "impression")); [discriminate|].
    destruct (jsstring_eqb m (str "explain")); [discriminate|].
    inversion Hp. subst e. cbn [fst snd].
    repeat split; try (intros; contradiction); try discriminate.
    intros msg H; inversion H; simpl; tauto.
Qed.

Lemma generateReportText_results_witness :
  let openai : Functions.OpenAI := fun _ => Rejects (str "quota exceeded") in
  let data := Some (Req.mk (Some (str "polish")) (Some (str "liver ok")) None) in
  fst (Functions.generateReportText openai data)
  = Rejects (str "AI generation failed")
  /\ In (str "AI generation failed") functionErrors.
Proof.
  intros openai data.
  assert (H : fst (Functions.generateReportText openai data)
              = Rejects (str "AI generation failed")) by reflexivity.
  split; [exact H|].
  exact (proj1 (generateReportText_results openai data)
           (str "AI generation failed") H).
Defined.

(* ================================================================== *)
(** * Further properties: the earlier bridge *)
(* ================================================================== *)

Ltac three_attempts net prompt :=
  unfold Legacy.callGemini; change Legacy.MAX_RETRIES with 3%nat;
  rewrite (callGemini_from_step net prompt 0 2),
          (callGemini_from_step net prompt 1 1),
          (callGemini_from_step net prompt 2 0);
  change (Legacy.callGemini_from net prompt 3 0)
    with (@None jsstring, @nil Event).

(** X21: one call of [callGemini] shows at most one alert and waits at
    most 7000 ms in all. When it returns a text, the text neither starts
    nor ends with white space, no alert was shown and at most 3000 ms were
    waited; when it returns [null], all three requests were sent. *)
Theorem callGemini_bounds :
  forall (net : Legacy.Network) (prompt : jsstring),
    let r := Legacy.callGemini net prompt in
    (List.length (filter isAlert (snd r)) <= 1)%nat
    /\ 0 <= totalDelay (snd r) <= 7000
    /\ (forall t, fst r = Some t ->
          trimmed t /\ filter isAlert (snd r) = []
          /\ totalDelay (snd r) <= 3000)
    /\ (fst r = None -> requests (snd r) = 3%nat).
Proof.
  intros net prompt r. subst r. three_attempts net prompt.
  destruct (classify (net 0%nat)) as [t0| |e0];
    destruct (classify (net 1%nat)) as [t1| |e1];
    destruct (classify (net 2%nat)) as [t2| |e2];
    cbn; unfold totalDelay; cbn;
    (split; [lia|]); (split; [lia|]);
    (split; [intros t Ht; inversion Ht; subst;
             (split; [apply trim_trimmed|]); (split; [reflexivity|lia])
            |intros Hn; try discriminate Hn; reflexivity]).
Qed.

(** X22: when all three attempts are answered with status 429,
    [callGemini] waits 1000, 2000 and 4000 ms, the last wait included, and
    returns [null] without any alert or log entry. *)
Theorem callGemini_rate_limited_throughout :
  forall (net : Legacy.Network) (prompt : jsstring),
    (forall j, (j < Legacy.MAX_RETRIES)%nat -> classify (net j) = RateLimited) ->
    Legacy.callGemini net prompt =
    (None,
     [Fetch prompt; SetTimeout 1000;
      Fetch prompt; SetTimeout 2000;
      Fetch prompt; SetTimeout 4000]).
Proof.
  intros net prompt H.
  assert (H0 := H 0%nat). assert (H1 := H 1%nat). assert (H2 := H 2%nat).
  unfold Legacy.MAX_RETRIES in *.
  three_attempts net prompt.
  rewrite H0, H1, H2 by lia. reflexivity.
Qed.

Lemma callGemini_rate_limited_throughout_witness :
  (forall j, (j < Legacy.MAX_RETRIES)%nat ->
             classify (alwaysRateLimited j) = RateLimited)
  /\ fst (Legacy.callGemini alwaysRateLimited (str "p")) = None
  /\ filter isAlert (snd (Legacy.callGemini alwaysRateLimited (str "p"))) = [].
Proof.
  assert (H : forall j, (j < Legacy.MAX_RETRIES)%nat ->
                        classify (alwaysRateLimited j) = RateLimited)
    by (intros j _; reflexivity).
  split; [exact H|].
  rewrite (callGemini_rate_limited_throughout alwaysRateLimited (str "p") H).
  split; reflexivity.
Defined.



Lemma callGemini_bounds_witness :
  fst (Legacy.callGemini brokenThenText (str "p")) = Some (str "Normal study.")
  /\ trimmed (str "Normal study.")
  /\ totalDelay (snd (Legacy.callGemini brokenThenText (str "p"))) <= 3000.
Proof.
  assert (H : fst (Legacy.callGemini brokenThenText (str "p"))
              = Some (str "Normal study.")) by reflexivity.
  pose proof (proj1 (proj2 (proj2 (callGemini_bounds brokenThenText (str "p"))))
                (str "Normal study.") H) as (H1 & _ & H3).
  split; [exact H|]. split; [exact H1|exact H3].
Defined.

(* ================================================================== *)
(** * Further properties: the template tables *)
(* ================================================================== *)

Lemma lookup_In (key : jsstring) (c : Catalog) (e : Template) :
  lookup key c = Some e -> In (key, e) c.
Proof.
  induction c as [|[k v] c IH]; simpl; [discriminate|].
  destruct (jsstring_eqb key k) eqn:He.
  - intros H. inversion H. subst. apply jsstring_eqb_eq in He. subst.
    left. reflexivity.
  - intros H. right. now apply IH.
Qed.

Lemma handleTemplate_known (catalog : Catalog) (t : jsstring)
    (st : AppState) (e : Template) :
  forallb templateFilled catalog = true ->
  lookup t catalog = Some e ->
  findings (form (handleTemplate catalog t st)) = normal e
  /\ impression (form (handleTemplate catalog t st)) = impression_text e
  /\ truthy (normal e) = true /\ truthy (impression_text e) = true.
Proof.
  intros Hall Hl.
  rewrite forallb_forall in Hall.
  specialize (Hall _ (lookup_In _ _ _ Hl)).
  unfold templateFilled in Hall. simpl in Hall.
  apply andb_true_iff in Hall as [Hn Hi].
  simpl. unfold template_normal, template_impression. rewrite Hl.
  rewrite !or_else_empty. repeat split; assumption.
Qed.

Lemma handleTemplate_unknown (catalog : Catalog) (t : jsstring) (st : AppState) :
  lookup t catalog = None ->
  findings (form (handleTemplate catalog t st)) = []
  /\ impression (form (handleTemplate catalog t st)) = [].
Proof.
  intros Hl. simpl. unfold template_normal, template_impression.
  rewrite Hl. split; reflexivity.
Qed.

(** Every call of [callGemini] sends at least one request and at most
    three. *)
Lemma callGemini_sends (net : Legacy.Network) (prompt : jsstring) :
  (1 <= requests (snd (Legacy.callGemini net prompt)) <= 3)%nat.
Proof.
  split; [|apply requests_bounded].
  unfold Legacy.callGemini. change Legacy.MAX_RETRIES with 3%nat.
  rewrite (callGemini_from_step net prompt 0 2).
  destruct (classify (net 0%nat)); cbn [fst snd];
    rewrite ?requests_app; unfold requests; simpl; lia.
Qed.

(** X24: every template of the current component has findings and an
    impression, and so has every template of the earlier one. Choosing an
    exam type its table knows leaves both fields non-empty, and the three
    AI actions of that component then pass their guards and reach its
    bridge: in the current component each sends exactly one request (the
    functions handle being set), in the earlier one each sends at least
    one request and at most three. An exam type the table does not know
    leaves both fields empty, and the three AI actions of that component
    then stop at their guard with an alert. *)
Theorem known_template_fills_report :
  forall (t : jsstring) (st : AppState) (fn : Callable) (net : Legacy.Network),
    let cur := handleTemplate TEMPLATES t st in
    let old := handleTemplate Legacy.TEMPLATES t st in
    (lookup t TEMPLATES <> None ->
       findings (form cur) <> [] /\ impression (form cur) <> []
       /\ (functionsRef st = true ->
           requests (snd (handleAiPolish fn cur)) = 1%nat
           /\ requests (snd (handleAiImpression fn cur)) = 1%nat
           /\ requests (snd (handleAiExplain fn cur)) = 1%nat))
    /\ (lookup t TEMPLATES = None ->
          findings (form cur) = [] /\ impression (form cur) = []
          /\ handleAiPolish fn cur
             = (cur, [Alert (str "Please enter findings first.")])
          /\ handleAiImpression fn cur
             = (cur, [Alert (str "Please enter findings first.")])
          /\ handleAiExplain fn cur = (cur, [Alert (str "Report is empty.")]))
    /\ (lookup t Legacy.TEMPLATES <> None ->
          findings (form old) <> [] /\ impression (form old) <> []
          /\ (1 <= requests (snd (Legacy.handleAiPolish net old)) <= 3)%nat
          /\ (1 <= requests (snd (Legacy.handleAiImpression net old)) <= 3)%nat
          /\ (1 <= requests (snd (Legacy.handleAiExplain net old)) <= 3)%nat)
    /\ (lookup t Legacy.TEMPLATES = None ->
          findings (form old) = [] /\ impression (form old) = []
          /\ Legacy.handleAiPolish net old
             = (old, [Alert (str "Please enter findings first.")])
          /\ Legacy.handleAiImpression net old
             = (old, [Alert (str "Please enter findings first.")])
          /\ Legacy.handleAiExplain net old
             = (old, [Alert (str "Report is empty.")])).
Proof.
  intros t st fn net cur old. subst cur old.
  assert (Hcur : forallb templateFilled TEMPLATES = true)
    by (vm_compute; reflexivity).
  assert (Hold : forallb templateFilled Legacy.TEMPLATES = true)
    by (vm_compute; reflexivity).
  split; [|split; [|split]].
  - intros Hk. destruct (lookup t TEMPLATES) as [e|] eqn:Hl; [|congruence].
    destruct (handleTemplate_known TEMPLATES t st e Hcur Hl)
      as (Hf & Him & Hn & Hi).
    split; [rewrite Hf; now apply truthy_nonempty|].
    split; [rewrite Him; now apply truthy_nonempty|].
    intros Hfr.
    unfold handleAiPolish, handleAiImpression, handleAiExplain.
    rewrite Hf, Him, Hn, Hi. simpl negb. cbv iota. simpl andb. cbv iota.
    unfold callAiFunction. simpl functionsRef. rewrite Hfr. simpl negb. cbv iota.
    repeat split;
      match goal with
      | |- context [fn ?q] => destruct (fn q); reflexivity
      end.
  - intros Hl.
    destruct (handleTemplate_unknown TEMPLATES t st Hl) as [Hf Him].
    split; [exact Hf|]. split; [exact Him|].
    unfold handleAiPolish, handleAiImpression, handleAiExplain.
    rewrite Hf, Him. repeat split.
  - intros Hk.
    destruct (lookup t Legacy.TEMPLATES) as [e|] eqn:Hl; [|congruence].
    destruct (handleTemplate_known Legacy.TEMPLATES t st e Hold Hl)
      as (Hf & Him & Hn & Hi).
    split; [rewrite Hf; now apply truthy_nonempty|].
    split; [rewrite Him; now apply truthy_nonempty|].
    unfold Legacy.handleAiPolish, Legacy.handleAiImpression,
      Legacy.handleAiExplain.
    rewrite Hf, Him, Hn, Hi. simpl negb. cbv iota. simpl andb. cbv iota.
    repeat split;
      match goal with
      | |- context [Legacy.callGemini net ?p] =>
          pose proof (callGemini_sends net p) as [Hlo Hhi];
          destruct (Legacy.callGemini net p) as [r evs]; assumption
      end.
  - intros Hl.
    destruct (handleTemplate_unknown Legacy.TEMPLATES t st Hl) as [Hf Him].
    split; [exact Hf|]. split; [exact Him|].
    unfold Legacy.handleAiPolish, Legacy.handleAiImpression,
      Legacy.handleAiExplain.
    rewrite Hf, Him. repeat split.
Qed.

Lemma known_template_fills_report_witness :
  lookup (str "Appendix US") Legacy.TEMPLATES <> None
  /\ findings (form (handleTemplate Legacy.TEMPLATES (str "Appendix US")
                       freshSession)) <> []
  /\ (1 <= requests
             (snd (Legacy.handleAiPolish alwaysRateLimited
                     (handleTemplate Legacy.TEMPLATES (str "Appendix US")
                        freshSession))) <= 3)%nat.
Proof.
  assert (Hk : lookup (str "Appendix US") Legacy.TEMPLATES <> None)
    by (vm_compute; discriminate).
  pose proof (proj1 (proj2 (proj2
    (known_template_fills_report (str "Appendix US") freshSession callableUp
       alwaysRateLimited))) Hk) as (H1 & _ & H3 & _).
  split; [exact Hk|]. split; [exact H1|exact H3].
Defined.

(* ================================================================== *)
(** * Further properties: one save *)
(* ================================================================== *)

(** X25: one save, from its start to the moment it has settled. On a state
    without a truthy [currentId], a save that passes the guards calls
    [addDoc] with the form and the timestamp, and when the call resolves
    the returned id becomes [currentId] and nothing else changes. On a
    state with a truthy [currentId], a save that passes the guards calls
    [setDoc] with merge on that very document and leaves the whole state,
    the id included, as it was, whether the call resolves or not. *)
Theorem handleSave_creates_or_updates :
  forall (appId now : jsstring) (db : Firestore) (st : AppState)
         (uid : jsstring),
    user st = Some uid -> dbRef st = true -> name (form st) <> [] ->
    let path := reportsPath appId uid in
    let data := mkReportData (form st) now in
    (currentId_truthy (currentId st) = false ->
       forall cid, addDoc db path data = Resolves cid ->
         handleSave appId now db st =
         (setCurrentId (Some cid) st,
          [AddDoc path data (Resolves cid);
           Alert (str "Report saved successfully.")]))
    /\ (forall cid, currentId st = Some cid -> truthy cid = true ->
          fst (handleSave appId now db st) = st
          /\ exists outcome,
               snd (handleSave appId now db st) =
               [SetDocMerge path cid data (setDoc db path cid data); outcome]
               /\ isGatewayCall outcome = false).
Proof.
  intros appId now db st uid Hu Hd Hn path data. subst path data.
  apply truthy_nonempty in Hn. split.
  - intros Hc cid Hadd. unfold handleSave.
    rewrite Hu, Hd, Hn. simpl. rewrite Hc, Hadd. reflexivity.
  - intros cid Hc Ht. unfold handleSave.
    rewrite Hu, Hd, Hn. simpl. rewrite Hc. simpl. rewrite Ht. simpl.
    split; [reflexivity|]. eexists. split; [reflexivity|].
    destruct (setDoc db _ _ _); reflexivity.
Qed.

Lemma handleSave_creates_or_updates_witness :
  user sessionKim = Some (str "u1") /\ dbRef sessionKim = true
  /\ name (form sessionKim) <> []
  /\ currentId_truthy (currentId sessionKim) = false
  /\ currentId (fst (handleSave (str "sonograph-x") (str "t1") storeExample
                       sessionKim)) = Some (str "doc1").
Proof.
  assert (Hn : name (form sessionKim) <> []) by discriminate.
  repeat (split; [first [reflexivity | exact Hn]|]).
  rewrite (proj1 (handleSave_creates_or_updates (str "sonograph-x") (str "t1")
                    storeExample sessionKim (str "u1") eq_refl eq_refl Hn)
             eq_refl (str "doc1") eq_refl).
  reflexivity.
Defined.
